(** * AquaHarvest assessment service: the feasibility pipeline in Rocq

    A shallow embedding of
    [backend/assessment-service/src/services/assessmentService.js] and of the
    two helpers of [cache/redis.js] it calls ([getCache], [setCache]).

    JavaScript numbers are kept as exact rationals extended with the three
    special values of IEEE arithmetic that the service can produce
    ([Infinity], [-Infinity], [NaN]).  Binary rounding error, overflow and
    the sign of zero are not represented.  Every arithmetic operation
    returns its rational result in lowest terms, so that two computed
    numbers are equal in Rocq exactly when they are the same number.

    Asynchronous calls are sequential in the service (each is awaited), so
    they are modelled as ordinary calls whose outcome is supplied from
    outside: a collaborator call is rejected or resolves with a body, a
    Redis command or the database insert fails or not.  Exceptions are the
    [Throw] case of [result].  Logging is left out. *)

From Stdlib Require Import ZArith QArith Qround Qminmax Lqa Lia.
From Stdlib Require Import List Sorted String Ascii Bool DecimalString.
Import ListNotations.

Local Open Scope string_scope.
Local Open Scope Q_scope.

(** ** Numbers *)

Module JS.

Inductive number : Type :=
| Fin (q : Q)
| PosInf
| NegInf
| NaN.

(** A finite result, in lowest terms. *)
Definition fin (q : Q) : number := Fin (Qred q).

Definition of_Z (z : Z) : number := Fin (inject_Z z).

Definition Qpos_b (q : Q) : bool := negb (Qle_bool q 0).
Definition Qneg_b (q : Q) : bool := negb (Qle_bool 0 q).
Definition Qzero_b (q : Q) : bool := Qeq_bool q 0.

Definition inf_of (positive : bool) : number :=
  if positive then PosInf else NegInf.

Definition neg (a : number) : number :=
  match a with
  | Fin q => fin (- q)
  | PosInf => NegInf
  | NegInf => PosInf
  | NaN => NaN
  end.

Definition add (a b : number) : number :=
  match a, b with
  | NaN, _ | _, NaN => NaN
  | Fin x, Fin y => fin (x + y)
  | PosInf, NegInf | NegInf, PosInf => NaN
  | PosInf, _ | _, PosInf => PosInf
  | NegInf, _ | _, NegInf => NegInf
  end.

Definition sub (a b : number) : number := add a (neg b).

(** Product of an infinity (of the given sign) with a finite factor. *)
Definition inf_times (positive : bool) (q : Q) : number :=
  if Qzero_b q then NaN
  else inf_of (if Qpos_b q then positive else negb positive).

Definition mul (a b : number) : number :=
  match a, b with
  | NaN, _ | _, NaN => NaN
  | Fin x, Fin y => fin (x * y)
  | PosInf, Fin y | Fin y, PosInf => inf_times true y
  | NegInf, Fin y | Fin y, NegInf => inf_times false y
  | PosInf, PosInf | NegInf, NegInf => PosInf
  | PosInf, NegInf | NegInf, PosInf => NegInf
  end.

(** [x / y]: dividing by zero does not raise, it yields an infinity (or
    [NaN] for [0 / 0]); the zero divisor is taken as [+0]. *)
Definition div (a b : number) : number :=
  match a, b with
  | NaN, _ | _, NaN => NaN
  | Fin x, Fin y =>
      if Qzero_b y then
        if Qzero_b x then NaN else inf_of (Qpos_b x)
      else fin (x / y)
  | Fin _, (PosInf | NegInf) => Fin 0
  | PosInf, Fin y => inf_of (negb (Qneg_b y))
  | NegInf, Fin y => inf_of (Qneg_b y)
  | (PosInf | NegInf), (PosInf | NegInf) => NaN
  end.

(** Relational comparison; [None] when an operand is [NaN], in which case
    each of [<], [>], [<=], [>=] is false. *)
Definition cmp (a b : number) : option comparison :=
  match a, b with
  | NaN, _ | _, NaN => None
  | Fin x, Fin y => Some (x ?= y)
  | PosInf, PosInf | NegInf, NegInf => Some Eq
  | PosInf, _ | _, NegInf => Some Gt
  | NegInf, _ | _, PosInf => Some Lt
  end.

Definition gt (a b : number) : bool :=
  match cmp a b with Some Gt => true | _ => false end.
Definition lt (a b : number) : bool :=
  match cmp a b with Some Lt => true | _ => false end.
Definition ge (a b : number) : bool :=
  match cmp a b with Some Gt | Some Eq => true | _ => false end.
Definition le (a b : number) : bool :=
  match cmp a b with Some Lt | Some Eq => true | _ => false end.

(** [Math.min(a, b)] *)
Definition Math_min (a b : number) : number :=
  match cmp a b with
  | None => NaN
  | Some Gt => b
  | Some _ => a
  end.

(** [Math.round(a)]: the nearest integer, ties towards [+Infinity]. *)
Definition Math_round (a : number) : number :=
  match a with
  | Fin q => of_Z (Qfloor (q + (1 # 2)))
  | _ => a
  end.

(** ToBoolean on a number: [0] and [NaN] are falsy. *)
Definition truthy_number (a : number) : bool :=
  match a with
  | Fin q => negb (Qzero_b q)
  | NaN => false
  | _ => true
  end.

(** The text of a number inside a template literal.  Only integers are
    printed by the service ([Math.round] is applied first); a non-integer
    is not printed by this model. *)
Definition integer_text (z : Z) : string :=
  NilZero.string_of_int (Z.to_int z).

Definition is_finite (a : number) : bool :=
  match a with Fin _ => true | _ => false end.

(** Order on numbers as a proposition (false when [NaN] is involved). *)
Definition Le (a b : number) : Prop := le a b = true.
Definition Lt (a b : number) : Prop := lt a b = true.

End JS.

Export JS.

Declare Scope js_scope.
Delimit Scope js_scope with js.
Bind Scope js_scope with number.
Infix "+" := JS.add : js_scope.
Infix "-" := JS.sub : js_scope.
Infix "*" := JS.mul : js_scope.
Infix "/" := JS.div : js_scope.
Infix ">?" := JS.gt (at level 70, no associativity) : js_scope.
Infix "<?" := JS.lt (at level 70, no associativity) : js_scope.
Infix ">=?" := JS.ge (at level 70, no associativity) : js_scope.
Infix "<=?" := JS.le (at level 70, no associativity) : js_scope.

(** Numeric literals of the source. *)
Definition num (z : Z) : number := of_Z z.
Definition dec (n : Z) (d : positive) : number := fin (n # d).

(** ** Values

    Bodies returned by the collaborators and the records the service caches
    and persists are JavaScript values built from JSON. *)

#[local] Set Warnings "-register-all".

Inductive value : Type :=
| VUndefined
| VNull
| VBool (b : bool)
| VNum (n : number)
| VStr (s : string)
| VArr (items : list value)
| VObj (props : list (string * value)).

(** ToBoolean *)
Definition truthy (v : value) : bool :=
  match v with
  | VUndefined | VNull => false
  | VBool b => b
  | VNum n => truthy_number n
  | VStr s => negb (String.eqb s "")
  | VArr _ | VObj _ => true
  end.

(** [a || b] *)
Definition or_else (a b : value) : value := if truthy a then a else b.

Fixpoint lookup (k : string) (props : list (string * value)) : option value :=
  match props with
  | [] => None
  | (k', v) :: rest => if String.eqb k k' then Some v else lookup k rest
  end.

(** ** Exceptions *)

Inductive result (A : Type) : Type :=
| Ok (a : A)
| Throw (message : string).
Arguments Ok {A} a.
Arguments Throw {A} message.

Definition bind {A B : Type} (r : result A) (k : A -> result B) : result B :=
  match r with
  | Ok a => k a
  | Throw m => Throw m
  end.

Notation "x <- r ;; k" := (bind r (fun x => k))
  (at level 61, r at next level, right associativity).

(** The name V8 gives a value in the message of a [TypeError]. *)
Definition type_error (k : string) (receiver : string) : string :=
  "Cannot read properties of " ++ receiver ++ " (reading '" ++ k ++ "')".

(** [v.k] for the property names the service reads.  Reading a property
    of [undefined] or [null] throws; a primitive or an array has none of
    these names, nor has [Object.prototype]. *)
Definition get (k : string) (v : value) : result value :=
  match v with
  | VUndefined => Throw (type_error k "undefined")
  | VNull => Throw (type_error k "null")
  | VObj props => Ok (match lookup k props with Some x => x | None => VUndefined end)
  | _ => Ok VUndefined
  end.

(** [v?.k] *)
Definition get_opt (k : string) (v : value) : value :=
  match v with
  | VObj props => match lookup k props with Some x => x | None => VUndefined end
  | _ => VUndefined
  end.

(** [{...o, k: v}]: an existing property keeps its place, a new one is
    appended. *)
Fixpoint set_prop (k : string) (v : value) (props : list (string * value))
  : list (string * value) :=
  match props with
  | [] => [(k, v)]
  | (k', v') :: rest =>
      if String.eqb k k' then (k, v) :: rest else (k', v') :: set_prop k v rest
  end.

(** [JSON.parse(JSON.stringify(v))]: a property holding [undefined] is
    dropped, [undefined] inside an array and every non-finite number become
    [null]. *)
Fixpoint json_roundtrip (v : value) : value :=
  match v with
  | VNum n => if is_finite n then v else VNull
  | VArr items =>
      VArr ((fix elements (l : list value) : list value :=
               match l with
               | [] => []
               | VUndefined :: rest => VNull :: elements rest
               | x :: rest => json_roundtrip x :: elements rest
               end) items)
  | VObj props =>
      VObj ((fix members (l : list (string * value)) : list (string * value) :=
               match l with
               | [] => []
               | (_, VUndefined) :: rest => members rest
               | (k, x) :: rest => (k, json_roundtrip x) :: members rest
               end) props)
  | _ => v
  end.

(** *** ToNumber

    The arithmetic operators convert their operands.  A string is read by
    the grammar of numeric string literals: surrounding white space, an
    optional sign, [Infinity] or decimal digits with an optional fraction
    and exponent, or an unsigned [0x], [0o], [0b] integer. *)

Definition is_white (c : ascii) : bool :=
  let n := nat_of_ascii c in
  (((9 <=? n)%nat && (n <=? 13)%nat) || (n =? 32)%nat)%bool.

Fixpoint drop_white (l : list ascii) : list ascii :=
  match l with
  | c :: rest => if is_white c then drop_white rest else l
  | [] => []
  end.

Definition trim (l : list ascii) : list ascii :=
  rev (drop_white (rev (drop_white l))).

Definition digit_of (base : Z) (c : ascii) : option Z :=
  let n := Z.of_nat (nat_of_ascii c) in
  let d := if ((48 <=? n)%Z && (n <=? 57)%Z)%bool then Some (n - 48)%Z
           else if ((97 <=? n)%Z && (n <=? 102)%Z)%bool then Some (n - 87)%Z
           else if ((65 <=? n)%Z && (n <=? 70)%Z)%bool then Some (n - 55)%Z
           else None in
  match d with
  | Some x => if (x <? base)%Z then Some x else None
  | None => None
  end.

(** Leading digits of [l] in the given base: their value on top of [acc],
    how many there are, and what follows them. *)
Fixpoint digits (base : Z) (l : list ascii) (acc : Z) (count : nat)
  : Z * nat * list ascii :=
  match l with
  | c :: rest =>
      match digit_of base c with
      | Some d => digits base rest (acc * base + d)%Z (S count)
      | None => (acc, count, l)
      end
  | [] => (acc, count, [])
  end.

Definition radix_integer (base : Z) (l : list ascii) : number :=
  match digits base l 0%Z 0%nat with
  | (v, S _, []) => of_Z v
  | _ => NaN
  end.

Definition scale10 (q : Q) (e : Z) : Q :=
  if (0 <=? e)%Z then q * inject_Z (10 ^ e) else q / inject_Z (10 ^ (- e)).

Definition exponent_part (l : list ascii) : option Z :=
  match l with
  | [] => Some 0%Z
  | c :: rest =>
      if (Ascii.eqb c "e" || Ascii.eqb c "E")%bool then
        let '(negative, body) :=
          match rest with
          | "-"%char :: r => (true, r)
          | "+"%char :: r => (false, r)
          | _ => (false, rest)
          end in
        match digits 10 body 0%Z 0%nat with
        | (e, S _, []) => Some (if negative then (- e)%Z else e)
        | _ => None
        end
      else None
  end.

Definition unsigned_decimal (l : list ascii) : option Q :=
  let '(int_part, int_count, after_int) := digits 10 l 0%Z 0%nat in
  let '(mantissa, frac_count, dot_seen, after_frac) :=
    match after_int with
    | "."%char :: r =>
        let '(m, k, r') := digits 10 r int_part 0%nat in (m, k, true, r')
    | _ => (int_part, 0%nat, false, after_int)
    end in
  match (int_count + frac_count)%nat with
  | O => None
  | S _ =>
      match exponent_part after_frac with
      | Some e => Some (scale10 (inject_Z mantissa) (e - Z.of_nat frac_count))
      | None => None
      end
  end.

Definition signed_decimal (l : list ascii) : number :=
  let '(negative, body) :=
    match l with
    | "-"%char :: r => (true, r)
    | "+"%char :: r => (false, r)
    | _ => (false, l)
    end in
  if String.eqb (string_of_list_ascii body) "Infinity" then inf_of (negb negative)
  else match unsigned_decimal body with
       | Some q => fin (if negative then - q else q)
       | None => NaN
       end.

Definition StringToNumber (s : string) : number :=
  match trim (list_ascii_of_string s) with
  | [] => Fin 0
  | "0"%char :: x :: rest =>
      if (Ascii.eqb x "x" || Ascii.eqb x "X")%bool then radix_integer 16 rest
      else if (Ascii.eqb x "o" || Ascii.eqb x "O")%bool then radix_integer 8 rest
      else if (Ascii.eqb x "b" || Ascii.eqb x "B")%bool then radix_integer 2 rest
      else signed_decimal ("0"%char :: x :: rest)
  | l => signed_decimal l
  end.

(** An array converts through its text: the empty array is the empty
    string, a one-element array the text of its element, and a longer one
    contains a comma, which no numeric literal does. *)
Fixpoint ToNumber (v : value) : number :=
  match v with
  | VUndefined => NaN
  | VNull => Fin 0
  | VBool b => if b then Fin 1 else Fin 0
  | VNum n => n
  | VStr s => StringToNumber s
  | VObj _ => NaN
  | VArr [] => Fin 0
  | VArr [x] =>
      match x with
      | VUndefined | VNull => Fin 0
      | VBool _ => NaN
      | _ => ToNumber x
      end
  | VArr _ => NaN
  end.

(** The text of [Math.round(n)] inside a template literal (an integer
    below 1e21 prints as its decimal digits). *)
Definition rounded_text (n : number) : string :=
  match n with
  | Fin q => integer_text (Qfloor (q + (1 # 2)))
  | PosInf => "Infinity"
  | NegInf => "-Infinity"
  | NaN => "NaN"
  end.

(** ** The service's tables *)

(** [table[key]] on an object literal with the listed own properties;
    [None] is [undefined].  The keys are building types, roof materials and
    region names; the names every object inherits ([constructor],
    [toString], ...) are none of these and are not looked up. *)
Fixpoint entry {A : Type} (key : string) (table : list (string * A)) : option A :=
  match table with
  | [] => None
  | (k, a) :: rest => if String.eqb key k then Some a else entry key rest
  end.

(** [table[key] || fallback] for a table of numbers. *)
Definition entry_or (key : string) (table : list (string * number))
  (fallback : number) : number :=
  match entry key table with
  | Some n => if truthy_number n then n else fallback
  | None => fallback
  end.

(** Regional water costs (INR per 1000L) *)
Definition waterCosts : list (string * number) :=
  [("north", num 25); ("south", num 30); ("east", num 20);
   ("west", num 35); ("central", num 28)].

Record Coefficients : Type := { users : number; daily_usage : number }.

(** Building type coefficients (litres per person per day) *)
Definition buildingCoefficients : list (string * Coefficients) :=
  [("residential", {| users := num 4; daily_usage := num 150 |});
   ("commercial", {| users := num 25; daily_usage := num 50 |});
   ("industrial", {| users := num 100; daily_usage := num 200 |});
   ("institutional", {| users := num 50; daily_usage := num 80 |})].

(** Storage recommendations (share of the annual potential) *)
Definition storageRecommendations : list (string * number) :=
  [("residential", dec 15 100); ("commercial", dec 12 100);
   ("industrial", dec 10 100); ("institutional", dec 18 100)].

(** ** Helper methods *)

Definition _determineRegion (lat lng : number) : string :=
  if (lat >? num 28)%js then "north"
  else if (lat <? num 15)%js then "south"
  else if (lng <? num 77)%js then "west"
  else if (lng >? num 85)%js then "east"
  else "central".

Definition _getGrade (score : number) : string :=
  if (score >=? num 90)%js then "A+"
  else if (score >=? num 80)%js then "A"
  else if (score >=? num 70)%js then "B+"
  else if (score >=? num 60)%js then "B"
  else if (score >=? num 50)%js then "C+"
  else "C".

Definition _getRecommendationLevel (score : number) : string :=
  if (score >=? num 80)%js then "Highly Recommended"
  else if (score >=? num 60)%js then "Recommended"
  else if (score >=? num 40)%js then "Consider with Modifications"
  else "Not Recommended".

(** [array.push(x)] *)
Definition push {A : Type} (array : list A) (x : A) : list A :=
  (array ++ [x])%list.

(** An entry of the financing list; a field an entry does not have is
    [None]. *)
Record FinancingOption : Type := {
  fo_type : string;
  feasible : bool;
  duration : option string;
  coverage : option string;
  interest_rate : option string
}.

(** An optional number ([None] for [null] and [undefined]) used as a
    condition: the number when it is truthy. *)
Definition given (field : option number) : option number :=
  match field with
  | Some n => if truthy_number n then Some n else None
  | None => None
  end.

Definition _getFinancingOptions (totalCost : number) (monthlyIncome : option number)
  : list FinancingOption :=
  let options := [] in
  let options :=
    if (totalCost <? num 20000)%js
    then push options {| fo_type := "self_funded"; feasible := true;
                         duration := None; coverage := None; interest_rate := None |}
    else options in
  let options :=
    match given monthlyIncome with
    | Some income =>
        if (income >? totalCost / num 24)%js
        then push options {| fo_type := "monthly_installments"; feasible := true;
                             duration := Some "24 months"; coverage := None;
                             interest_rate := None |}
        else options
    | None => options
    end in
  let options :=
    push options {| fo_type := "government_subsidy"; feasible := true;
                    duration := None; coverage := Some "30-50%";
                    interest_rate := None |} in
  push options {| fo_type := "bank_loan"; feasible := (totalCost >? num 50000)%js;
                  duration := None; coverage := None;
                  interest_rate := Some "8-12%" |}.

(** ** The calculators *)

Record WaterPotential : Type := {
  wp_annual_liters : number;
  daily_average : number;
  monthly_average : number;
  runoff_coefficient : number;
  collection_efficiency : number
}.

Definition runoffCoefficients : list (string * number) :=
  [("concrete", dec 90 100); ("tile", dec 85 100); ("metal", dec 95 100);
   ("asbestos", dec 82 100); ("green", dec 60 100)].

Definition _calculateWaterPotential (roofArea annualRainfall : number)
  (roofType : string) : WaterPotential :=
  let coefficient := entry_or roofType runoffCoefficients (dec 85 100) in
  let annualLiters := (roofArea * annualRainfall * coefficient)%js in
  let dailyAverage := (annualLiters / num 365)%js in
  let monthlyAverage := (annualLiters / num 12)%js in
  {| wp_annual_liters := Math_round annualLiters;
     daily_average := Math_round dailyAverage;
     monthly_average := Math_round monthlyAverage;
     runoff_coefficient := coefficient;
     collection_efficiency := dec 95 100 |}.

Record WaterDemand : Type := {
  daily_liters : number;
  monthly_liters : number;
  wd_annual_liters : number;
  per_capita_daily : number;
  occupancy : number
}.

Definition residential_coefficients : Coefficients :=
  {| users := num 4; daily_usage := num 150 |}.

Definition _calculateWaterDemand (buildingType : string) (occupancy : number)
  : WaterDemand :=
  let coeffs := match entry buildingType buildingCoefficients with
                | Some c => c
                | None => residential_coefficients
                end in
  let dailyDemand := (occupancy * daily_usage coeffs)%js in
  let monthlyDemand := (dailyDemand * num 30)%js in
  let annualDemand := (dailyDemand * num 365)%js in
  {| daily_liters := dailyDemand;
     monthly_liters := monthlyDemand;
     wd_annual_liters := annualDemand;
     per_capita_daily := daily_usage coeffs;
     occupancy := occupancy |}.

(** ** Collaborators

    A call to the ML service either is rejected (time-out, transport error,
    error status), with the message of the error, or resolves with the body
    of the response. *)

Inductive reply : Type :=
| Rejected (message : string)
| Resolved (data : value).

(** The request fields the service reads.  An absent field is [None]. *)
Record Params : Type := {
  latitude : number;
  longitude : number;
  address : option string;
  buildingType : option string;
  roofArea : option number;
  roofType : option string;
  householdSize : option number;
  monthlyIncome : option number;
  budgetRange : option string;
  timeline : option string;
  imageUrl : option string;
  floors : option number
}.

(** [field || fallback] on an optional string and an optional number. *)
Definition string_or (field : option string) (fallback : string) : string :=
  match field with
  | Some s => if String.eqb s "" then fallback else s
  | None => fallback
  end.

Definition number_or (field : option number) (fallback : number) : number :=
  match given field with
  | Some n => n
  | None => fallback
  end.

(** [field || null] *)
Definition string_or_null (field : option string) : option string :=
  match field with
  | Some s => if String.eqb s "" then None else Some s
  | None => None
  end.

Definition regionalRainfall : list (string * number) :=
  [("north", num 650); ("south", num 920); ("east", num 1200);
   ("west", num 550); ("central", num 850)].

Definition _getRainfallData (ml : reply) (params : Params) : value :=
  match ml with
  | Resolved data => data
  | Rejected _ =>
      let region := _determineRegion (latitude params) (longitude params) in
      VObj [("status", VStr "estimated");
            ("annual_prediction",
              VObj [("total_rainfall", VNum (entry_or region regionalRainfall (num 850)));
                    ("deviation_percent", VNum (num 0))]);
            ("monsoon_analysis",
              VObj [("intensity", VStr "Normal");
                    ("peak_month", VStr "2024-07")])]
  end.

Definition estimations : list (string * number) :=
  [("residential", num 100); ("commercial", num 250);
   ("industrial", num 500); ("institutional", num 200)].

Definition roof_estimation (params : Params) : value :=
  VObj [("status", VStr "estimated");
        ("area_sqm",
          VNum (match buildingType params with
                | Some t => entry_or t estimations (num 100)
                | None => num 100
                end));
        ("confidence", VNum (dec 6 10))].

(** The collaborator is called only when the request carries an image. *)
Definition _detectRoofArea (ml : reply) (params : Params) : value :=
  match string_or_null (imageUrl params) with
  | Some _ =>
      match ml with
      | Resolved data => data
      | Rejected _ => roof_estimation params
      end
  | None => roof_estimation params
  end.

Record FeasibilityRequest : Type := {
  roof_area : value;
  annual_rainfall : value;
  household_size : number;
  roof_type : string;
  building_type : string
}.

Definition _getFeasibilityAnalysis (ml : reply) (params : FeasibilityRequest) : value :=
  match ml with
  | Resolved data => data
  | Rejected _ =>
      let waterSaving :=
        (ToNumber (roof_area params) * ToNumber (annual_rainfall params) * dec 85 100)%js in
      let basicCost := (ToNumber (roof_area params) * num 200)%js in
      VObj [("status", VStr "estimated");
            ("feasibility_score", VNum (num 75));
            ("water_potential_annual", VNum waterSaving);
            ("cost_estimate", VNum basicCost);
            ("payback_period_months", VNum (num 24));
            ("technical_analysis",
              VObj [("technical_score", VNum (num 80));
                    ("runoff_coefficient", VNum (dec 85 100))])]
  end.

(** ** Structure recommendations *)

Record Structure : Type := {
  st_id : string;
  name : string;
  st_type : string;
  capacity : string;
  estimated_cost : number;
  priority : number;
  description : string;
  specifications : list (string * value)
}.

Definition _generateStructureRecommendations (waterPotential : WaterPotential)
  (waterDemand : WaterDemand) (buildingType budgetRange : string) : list Structure :=
  let structures := [] in
  let storageRatio := entry_or buildingType storageRecommendations (dec 15 100) in
  let recommendedStorage := (wp_annual_liters waterPotential * storageRatio)%js in
  let structures :=
    if (recommendedStorage >? num 500)%js then
      let tankCapacity := Math_min (num 5000) recommendedStorage in
      push structures
        {| st_id := "primary_storage";
           name := "Primary Storage Tank";
           st_type := "storage";
           capacity := rounded_text tankCapacity ++ "L";
           estimated_cost := Math_round (tankCapacity * num 15 + num 5000)%js;
           priority := num 1;
           description := "Main water storage tank for collected rainwater";
           specifications := [("material", VStr "RCC/Plastic");
                              ("maintenance", VStr "Quarterly cleaning required")] |}
    else structures in
  let structures :=
    push structures
      {| st_id := "first_flush";
         name := "First Flush Diverter";
         st_type := "filter";
         capacity := "50L";
         estimated_cost := num 2500;
         priority := num 2;
         description := "Diverts initial rainfall to remove roof contaminants";
         specifications := [("type", VStr "Manual/Automatic");
                            ("maintenance", VStr "Monthly inspection")] |} in
  let structures :=
    push structures
      {| st_id := "filtration";
         name := "Multi-stage Filtration";
         st_type := "treatment";
         capacity := rounded_text (daily_liters waterDemand) ++ "L/day";
         estimated_cost := if String.eqb budgetRange "high" then num 8000 else num 4000;
         priority := num 3;
         description := "Sand, gravel, and carbon filtration system";
         specifications :=
           [("stages", VNum (if String.eqb budgetRange "high" then num 4 else num 2));
            ("maintenance", VStr "Filter replacement every 6 months")] |} in
  if (wp_annual_liters waterPotential >? wd_annual_liters waterDemand * dec 15 10)%js then
    push structures
      {| st_id := "recharge_pit";
         name := "Groundwater Recharge Pit";
         st_type := "recharge";
         capacity := "2m³";
         estimated_cost := num 5000;
         priority := num 4;
         description := "Channels excess water to groundwater";
         specifications := [("depth", VStr "3m");
                            ("maintenance", VStr "Annual cleaning")] |}
  else structures.

(** ** Economics *)

Record Location : Type := {
  loc_latitude : number;
  loc_longitude : number;
  loc_address : option string
}.

Record Economics : Type := {
  total_installation_cost : number;
  annual_water_savings : number;
  annual_maintenance_cost : number;
  net_annual_savings : number;
  payback_period_years : number;
  roi_percentage : number;
  water_cost_per_liter : number;
  affordability_score : number;
  financing_options : list FinancingOption
}.

(** [structures.reduce((sum, struct) => sum + struct.estimated_cost, 0)] *)
Definition sum_costs (structures : list Structure) : number :=
  fold_left (fun sum struct => (sum + estimated_cost struct)%js) structures (num 0).

Definition _calculateEconomics (structures : list Structure)
  (waterPotential : WaterPotential) (location : Location)
  (monthlyIncome : option number) : Economics :=
  let region := _determineRegion (loc_latitude location) (loc_longitude location) in
  let waterCostPerL := (entry_or region waterCosts (num 28) / num 1000)%js in
  let totalInstallationCost := sum_costs structures in
  let annualWaterSavings := (wp_annual_liters waterPotential * waterCostPerL)%js in
  let annualMaintenanceCost := (totalInstallationCost * dec 5 100)%js in
  let netAnnualSavings := (annualWaterSavings - annualMaintenanceCost)%js in
  let paybackPeriod := (totalInstallationCost / netAnnualSavings)%js in
  let roi := (netAnnualSavings / totalInstallationCost * num 100)%js in
  let affordabilityScore :=
    match given monthlyIncome with
    | Some income =>
        Math_min (num 100) (income * num 12 / totalInstallationCost * num 50)%js
    | None => num 70
    end in
  {| total_installation_cost := Math_round totalInstallationCost;
     annual_water_savings := Math_round annualWaterSavings;
     annual_maintenance_cost := Math_round annualMaintenanceCost;
     net_annual_savings := Math_round netAnnualSavings;
     payback_period_years := (Math_round (paybackPeriod * num 10) / num 10)%js;
     roi_percentage := (Math_round (roi * num 10) / num 10)%js;
     water_cost_per_liter := waterCostPerL;
     affordability_score := Math_round affordabilityScore;
     financing_options := _getFinancingOptions totalInstallationCost monthlyIncome |}.

(** ** Environmental impact *)

Record Environmental : Type := {
  annual_water_saved : number;
  co2_reduction_kg : number;
  energy_saved_kwh : number;
  groundwater_conservation : number;
  environmental_score : number
}.

Definition _calculateEnvironmentalImpact (annualWaterSaved : number)
  (buildingType : string) : Environmental :=
  let co2Reduction := (annualWaterSaved / num 1000 * dec 5 10)%js in
  let energySaved := (annualWaterSaved / num 1000 * num 2)%js in
  let groundwaterSaved := annualWaterSaved in
  {| annual_water_saved := Math_round annualWaterSaved;
     co2_reduction_kg := (Math_round (co2Reduction * num 10) / num 10)%js;
     energy_saved_kwh := Math_round energySaved;
     groundwater_conservation := Math_round groundwaterSaved;
     environmental_score :=
       Math_min (num 100) (annualWaterSaved / num 10000 * num 100)%js |}.

(** ** The assessment record *)

Record Building : Type := {
  b_type : string;
  b_roof_area : value;
  b_roof_type : string;
  b_floors : number
}.

Record Household : Type := {
  size : number;
  monthly_income : option number
}.

Record Preferences : Type := {
  budget_range : string;
  pref_timeline : string
}.

Record Steps : Type := {
  rainfall : value;
  roofDetection : option value;
  waterPotential : WaterPotential;
  waterDemand : WaterDemand;
  feasibility : value;
  structures : list Structure;
  economics : Economics;
  environmental : Environmental
}.

Record Phase : Type := {
  phase : number;
  title : string;
  ph_duration : string;
  ph_structures : list Structure;
  cost : number
}.

Record Action : Type := { action : string; reason : string; urgency : string }.

Record Task : Type := { frequency : string; task : string }.

Record Recommendations : Type := {
  implementation_phases : list Phase;
  priority_actions : list Action;
  optimization_tips : list string;
  maintenance_schedule : list Task
}.

Record Breakdown : Type := {
  bd_feasibility : number;
  bd_economics : number;
  bd_environmental : number;
  bd_technical : number;
  bd_social : number
}.

Record OverallScore : Type := {
  overall : number;
  breakdown : Breakdown;
  grade : string;
  recommendation : string
}.

(** The object [performAssessment] fills in step by step; a property not
    yet assigned is [None]. *)
Record Assessment : Type := {
  id : string;
  timestamp : string;
  location : Location;
  building : Building;
  household : Household;
  preferences : Preferences;
  status : string;
  steps : Steps;
  recommendations : option Recommendations;
  overall_score : option OverallScore;
  completed_at : option string;
  processing_time : option number
}.

(** ** Final recommendations and overall score *)

Definition _generateRecommendations (assessment : Assessment) : Recommendations :=
  let all := structures (steps assessment) in
  let early := filter (fun s => (priority s <=? num 2)%js) all in
  let late := filter (fun s => (priority s >? num 2)%js) all in
  let implementation_phases :=
    if (0 <? List.length all)%nat then
      [ {| phase := num 1;
           title := "Basic Collection System";
           ph_duration := "2-4 weeks";
           ph_structures := early;
           cost := sum_costs early |};
        {| phase := num 2;
           title := "Advanced Treatment & Storage";
           ph_duration := "2-3 weeks";
           ph_structures := late;
           cost := sum_costs late |} ]
    else [] in
  let priority_actions := [] in
  let priority_actions :=
    if (payback_period_years (economics (steps assessment)) <? num 3)%js then
      push priority_actions
        {| action := "Immediate Implementation";
           reason := "Excellent ROI with payback period under 3 years";
           urgency := "high" |}
    else priority_actions in
  let priority_actions :=
    if (wp_annual_liters (waterPotential (steps assessment))
        >? wd_annual_liters (waterDemand (steps assessment)))%js then
      push priority_actions
        {| action := "Add Groundwater Recharge";
           reason := "Excess water potential can benefit groundwater";
           urgency := "medium" |}
    else priority_actions in
  {| implementation_phases := implementation_phases;
     priority_actions := priority_actions;
     optimization_tips :=
       ["Install gutters with proper slope for maximum collection efficiency";
        "Use smooth roof surfaces to increase runoff coefficient";
        "Regular cleaning of roof and gutters before monsoon season";
        "Consider rainwater quality testing for potable use";
        "Install overflow management system for heavy rainfall events"];
     maintenance_schedule :=
       [ {| frequency := "Weekly";
            task := "Visual inspection of gutters and downpipes" |};
         {| frequency := "Monthly";
            task := "Clean first flush diverter and check filters" |};
         {| frequency := "Quarterly";
            task := "Deep clean storage tank and inspect structure" |};
         {| frequency := "Annually";
            task := "Complete system audit and component replacement" |} ] |}.

Module weights.
Definition feasibility : number := dec 3 10.
Definition economics : number := dec 25 100.
Definition environmental : number := dec 2 10.
Definition technical : number := dec 15 100.
Definition social : number := dec 1 10.
End weights.

(** The weighted sum of the five component scores. *)
Definition weighted (feasibilityScore economicsScore environmentalScore
  technicalScore socialScore : number) : number :=
  (feasibilityScore * weights.feasibility +
   economicsScore * weights.economics +
   environmentalScore * weights.environmental +
   technicalScore * weights.technical +
   socialScore * weights.social)%js.

Definition _calculateOverallScore (assessment : Assessment) : result OverallScore :=
  let st := steps assessment in
  raw_feasibility <- get "feasibility_score" (feasibility st) ;;
  let feasibilityScore := ToNumber (or_else raw_feasibility (VNum (num 75))) in
  let economicsScore :=
    Math_min (num 100) (roi_percentage (economics st) * num 5)%js in
  let environmentalScore := environmental_score (environmental st) in
  technical_analysis <- get "technical_analysis" (feasibility st) ;;
  let technicalScore :=
    ToNumber (or_else (get_opt "technical_score" technical_analysis) (VNum (num 75))) in
  let socialScore :=
    if (wp_annual_liters (waterPotential st) >? num 10000)%js then num 85 else num 65 in
  let overallScore :=
    weighted feasibilityScore economicsScore environmentalScore
             technicalScore socialScore in
  Ok {| overall := Math_round overallScore;
        breakdown := {| bd_feasibility := Math_round feasibilityScore;
                        bd_economics := Math_round economicsScore;
                        bd_environmental := Math_round environmentalScore;
                        bd_technical := Math_round technicalScore;
                        bd_social := Math_round socialScore |};
        grade := _getGrade overallScore;
        recommendation := _getRecommendationLevel overallScore |}.

(** ** Records as JavaScript objects

    The objects the service builds, with their properties in the order the
    source writes them.  These are the values that are returned, cached and
    persisted. *)

Definition optional (k : string) (field : option value) : list (string * value) :=
  match field with
  | Some v => [(k, v)]
  | None => []
  end.

Definition nullable {A : Type} (f : A -> value) (field : option A) : value :=
  match field with
  | Some a => f a
  | None => VNull
  end.

Definition WaterPotential_object (w : WaterPotential) : value :=
  VObj [("annual_liters", VNum (wp_annual_liters w));
        ("daily_average", VNum (daily_average w));
        ("monthly_average", VNum (monthly_average w));
        ("runoff_coefficient", VNum (runoff_coefficient w));
        ("collection_efficiency", VNum (collection_efficiency w))].

Definition WaterDemand_object (w : WaterDemand) : value :=
  VObj [("daily_liters", VNum (daily_liters w));
        ("monthly_liters", VNum (monthly_liters w));
        ("annual_liters", VNum (wd_annual_liters w));
        ("per_capita_daily", VNum (per_capita_daily w));
        ("occupancy", VNum (occupancy w))].

Definition Structure_object (s : Structure) : value :=
  VObj [("id", VStr (st_id s));
        ("name", VStr (name s));
        ("type", VStr (st_type s));
        ("capacity", VStr (capacity s));
        ("estimated_cost", VNum (estimated_cost s));
        ("priority", VNum (priority s));
        ("description", VStr (description s));
        ("specifications", VObj (specifications s))].

Definition FinancingOption_object (o : FinancingOption) : value :=
  VObj ([("type", VStr (fo_type o)); ("feasible", VBool (feasible o))]
        ++ optional "duration" (option_map VStr (duration o))
        ++ optional "coverage" (option_map VStr (coverage o))
        ++ optional "interest_rate" (option_map VStr (interest_rate o)))%list.

Definition Economics_object (e : Economics) : value :=
  VObj [("total_installation_cost", VNum (total_installation_cost e));
        ("annual_water_savings", VNum (annual_water_savings e));
        ("annual_maintenance_cost", VNum (annual_maintenance_cost e));
        ("net_annual_savings", VNum (net_annual_savings e));
        ("payback_period_years", VNum (payback_period_years e));
        ("roi_percentage", VNum (roi_percentage e));
        ("water_cost_per_liter", VNum (water_cost_per_liter e));
        ("affordability_score", VNum (affordability_score e));
        ("financing_options", VArr (map FinancingOption_object (financing_options e)))].

Definition Environmental_object (e : Environmental) : value :=
  VObj [("annual_water_saved", VNum (annual_water_saved e));
        ("co2_reduction_kg", VNum (co2_reduction_kg e));
        ("energy_saved_kwh", VNum (energy_saved_kwh e));
        ("groundwater_conservation", VNum (groundwater_conservation e));
        ("environmental_score", VNum (environmental_score e))].

Definition Steps_object (s : Steps) : value :=
  VObj ([("rainfall", rainfall s)]
        ++ optional "roofDetection" (roofDetection s)
        ++ [("waterPotential", WaterPotential_object (waterPotential s));
            ("waterDemand", WaterDemand_object (waterDemand s));
            ("feasibility", feasibility s);
            ("structures", VArr (map Structure_object (structures s)));
            ("economics", Economics_object (economics s));
            ("environmental", Environmental_object (environmental s))])%list.

Definition Phase_object (p : Phase) : value :=
  VObj [("phase", VNum (phase p));
        ("title", VStr (title p));
        ("duration", VStr (ph_duration p));
        ("structures", VArr (map Structure_object (ph_structures p)));
        ("cost", VNum (cost p))].

Definition Action_object (a : Action) : value :=
  VObj [("action", VStr (action a));
        ("reason", VStr (reason a));
        ("urgency", VStr (urgency a))].

Definition Task_object (t : Task) : value :=
  VObj [("frequency", VStr (frequency t)); ("task", VStr (task t))].

Definition Recommendations_object (r : Recommendations) : value :=
  VObj [("implementation_phases", VArr (map Phase_object (implementation_phases r)));
        ("priority_actions", VArr (map Action_object (priority_actions r)));
        ("optimization_tips", VArr (map VStr (optimization_tips r)));
        ("maintenance_schedule", VArr (map Task_object (maintenance_schedule r)))].

Definition OverallScore_object (o : OverallScore) : value :=
  VObj [("overall", VNum (overall o));
        ("breakdown",
          VObj [("feasibility", VNum (bd_feasibility (breakdown o)));
                ("economics", VNum (bd_economics (breakdown o)));
                ("environmental", VNum (bd_environmental (breakdown o)));
                ("technical", VNum (bd_technical (breakdown o)));
                ("social", VNum (bd_social (breakdown o)))]);
        ("grade", VStr (grade o));
        ("recommendation", VStr (recommendation o))].

Definition Assessment_object (a : Assessment) : value :=
  VObj ([("id", VStr (id a));
         ("timestamp", VStr (timestamp a));
         ("location",
           VObj [("latitude", VNum (loc_latitude (location a)));
                 ("longitude", VNum (loc_longitude (location a)));
                 ("address", nullable VStr (loc_address (location a)))]);
         ("building",
           VObj [("type", VStr (b_type (building a)));
                 ("roof_area", b_roof_area (building a));
                 ("roof_type", VStr (b_roof_type (building a)));
                 ("floors", VNum (b_floors (building a)))]);
         ("household",
           VObj [("size", VNum (size (household a)));
                 ("monthly_income", nullable VNum (monthly_income (household a)))]);
         ("preferences",
           VObj [("budget_range", VStr (budget_range (preferences a)));
                 ("timeline", VStr (pref_timeline (preferences a)))]);
         ("status", VStr (status a));
         ("steps", Steps_object (steps a))]
        ++ optional "recommendations" (option_map Recommendations_object (recommendations a))
        ++ optional "overall_score" (option_map OverallScore_object (overall_score a))
        ++ optional "completed_at" (option_map VStr (completed_at a))
        ++ optional "processing_time" (option_map VNum (processing_time a)))%list.

(** ** The cache ([cache/redis.js])

    The key is the template string
    [`${latitude}_${longitude}_${buildingType}_${roofArea || 'auto'}`].
    It is kept as its four interpolated parts: numbers print injectively and
    only the building type may contain an underscore, so two requests yield
    the same string exactly when the four parts agree. *)

Record CacheKey : Type := {
  key_latitude : number;
  key_longitude : number;
  key_buildingType : string;
  key_roofArea : option number
}.

Definition _generateCacheKey (params : Params) : CacheKey :=
  {| key_latitude := latitude params;
     key_longitude := longitude params;
     key_buildingType := match buildingType params with
                         | Some t => t
                         | None => "undefined"
                         end;
     key_roofArea := given (roofArea params) |}.

(** Two numbers print as the same text. *)
Definition same_number (a b : number) : bool :=
  match a, b with
  | Fin x, Fin y => Qeq_bool x y
  | PosInf, PosInf | NegInf, NegInf | NaN, NaN => true
  | _, _ => false
  end.

Definition same_key (a b : CacheKey) : bool :=
  same_number (key_latitude a) (key_latitude b)
  && same_number (key_longitude a) (key_longitude b)
  && String.eqb (key_buildingType a) (key_buildingType b)
  && match key_roofArea a, key_roofArea b with
     | Some x, Some y => same_number x y
     | None, None => true
     | _, _ => false
     end.

(** The Redis server as the service sees it: whether the client is
    connected, and under each key the instant (in seconds) at which the
    entry expires together with the value its JSON text parses to. *)
Record Redis : Type := {
  isConnected : bool;
  entries : list (CacheKey * (Z * value))
}.

Fixpoint find_entry (key : CacheKey) (l : list (CacheKey * (Z * value)))
  : option (Z * value) :=
  match l with
  | [] => None
  | (k, e) :: rest => if same_key key k then Some e else find_entry key rest
  end.

(** [getCache(key)] at instant [now]; [failing] tells that the Redis
    command raises, which [getCache] catches.  [VNull] is a miss. *)
Definition getCache (failing : bool) (now : Z) (redis : Redis) (key : CacheKey) : value :=
  if negb (isConnected redis) then VNull
  else if failing then VNull
  else match find_entry key (entries redis) with
       | Some (expires, v) => if (now <? expires)%Z then v else VNull
       | None => VNull
       end.

(** [setCache(key, value, ttl)] at instant [now]. *)
Definition setCache (failing : bool) (now : Z) (redis : Redis) (key : CacheKey)
  (v : value) (ttl : Z) : Redis :=
  if negb (isConnected redis) then redis
  else if failing then redis
  else {| isConnected := isConnected redis;
          entries := (key, ((now + ttl)%Z, json_roundtrip v)) :: entries redis |}.

(** ** The orchestrator *)

(** What the surroundings contribute to one call of [performAssessment]:
    the identifier drawn, the clock readings, the outcome of each
    collaborator call should it be made, and whether the Redis commands and
    the database insert fail. *)
Record Run : Type := {
  uuid : string;
  started_at : string;
  finished_at : string;
  elapsed_seconds : number;
  cache_read_time : Z;
  cache_write_time : Z;
  cache_read_fails : bool;
  cache_write_fails : bool;
  rainfall_service : reply;
  roof_service : reply;
  feasibility_service : reply;
  database_error : option string
}.

(** The cache and the store. *)
Record World : Type := {
  redis : Redis;
  assessments : list value
}.

(** [saveAssessment(assessment)]: the insert either raises, and the error
    is passed on, or adds the record to the store. *)
Definition saveAssessment (failure : option string) (store : list value)
  (assessment : value) : result (list value) :=
  match failure with
  | Some message => Throw message
  | None => Ok (push store (json_roundtrip assessment))
  end.

(** The ten steps of [performAssessment] between the cache check and the
    save. *)
Definition pipeline (run : Run) (params : Params) (assessmentId : string)
  : result Assessment :=
  let building_type := string_or (buildingType params) "residential" in
  household_size <-
    match given (householdSize params) with
    | Some n => Ok n
    | None =>
        match entry building_type buildingCoefficients with
        | Some c => Ok (users c)
        | None => Throw (type_error "users" "undefined")
        end
    end ;;
  let location :=
    {| loc_latitude := latitude params;
       loc_longitude := longitude params;
       loc_address := string_or_null (address params) |} in
  let roof_type := string_or (roofType params) "concrete" in
  let household :=
    {| size := household_size; monthly_income := given (monthlyIncome params) |} in
  let preferences :=
    {| budget_range := string_or (budgetRange params) "medium";
       pref_timeline := string_or (timeline params) "3-6 months" |} in
  (* Step 1: rainfall data *)
  let rainfall := _getRainfallData (rainfall_service run) params in
  (* Step 2: detect or estimate the roof area if not provided *)
  detection <-
    match given (roofArea params) with
    | Some area => Ok (None, VNum area)
    | None =>
        let roofDetection := _detectRoofArea (roof_service run) params in
        area_sqm <- get "area_sqm" roofDetection ;;
        Ok (Some roofDetection, area_sqm)
    end ;;
  let '(roofDetection, roof_area) := detection in
  let building :=
    {| b_type := building_type;
       b_roof_area := roof_area;
       b_roof_type := roof_type;
       b_floors := number_or (floors params) (num 1) |} in
  (* Step 3: water potential *)
  annual_prediction <- get "annual_prediction" rainfall ;;
  total_rainfall <- get "total_rainfall" annual_prediction ;;
  let waterPotential :=
    _calculateWaterPotential (ToNumber roof_area) (ToNumber total_rainfall) roof_type in
  (* Step 4: water demand *)
  let waterDemand := _calculateWaterDemand building_type household_size in
  (* Step 5: feasibility analysis *)
  let feasibility :=
    _getFeasibilityAnalysis (feasibility_service run)
      {| roof_area := roof_area;
         annual_rainfall := total_rainfall;
         household_size := household_size;
         roof_type := roof_type;
         building_type := building_type |} in
  (* Step 6: structure recommendations *)
  let structures :=
    _generateStructureRecommendations waterPotential waterDemand building_type
      (budget_range preferences) in
  (* Step 7: economics *)
  let economics :=
    _calculateEconomics structures waterPotential location (monthly_income household) in
  (* Step 8: environmental impact *)
  let environmental :=
    _calculateEnvironmentalImpact (wp_annual_liters waterPotential) building_type in
  let assessment :=
    {| id := assessmentId;
       timestamp := started_at run;
       location := location;
       building := building;
       household := household;
       preferences := preferences;
       status := "processing";
       steps := {| rainfall := rainfall;
                   roofDetection := roofDetection;
                   waterPotential := waterPotential;
                   waterDemand := waterDemand;
                   feasibility := feasibility;
                   structures := structures;
                   economics := economics;
                   environmental := environmental |};
       recommendations := None;
       overall_score := None;
       completed_at := None;
       processing_time := None |} in
  (* Step 9: final recommendations *)
  let recommendations := _generateRecommendations assessment in
  (* Step 10: overall score *)
  overall_score <- _calculateOverallScore assessment ;;
  Ok {| id := assessmentId;
        timestamp := started_at run;
        location := location;
        building := building;
        household := household;
        preferences := preferences;
        status := "completed";
        steps := steps assessment;
        recommendations := Some recommendations;
        overall_score := Some overall_score;
        completed_at := Some (finished_at run);
        processing_time := Some (elapsed_seconds run) |}.

(** The own enumerable properties [{...v}] copies. *)
Definition spread (v : value) : list (string * value) :=
  match v with
  | VObj props => props
  | VArr items =>
      combine (map (fun i => integer_text (Z.of_nat i)) (seq 0 (List.length items))) items
  | VStr s =>
      combine (map (fun i => integer_text (Z.of_nat i)) (seq 0 (String.length s)))
              (map (fun c => VStr (String c EmptyString)) (list_ascii_of_string s))
  | _ => []
  end.

(** The body of the [try] block. *)
Definition attempt (run : Run) (world : World) (params : Params)
  : result value * World :=
  let assessmentId := uuid run in
  (* Check cache first *)
  let cacheKey := _generateCacheKey params in
  let cachedResult :=
    getCache (cache_read_fails run) (cache_read_time run) (redis world) cacheKey in
  if truthy cachedResult then
    (Ok (VObj (set_prop "cached" (VBool true)
                (set_prop "id" (VStr assessmentId) (spread cachedResult)))),
     world)
  else
    match pipeline run params assessmentId with
    | Throw message => (Throw message, world)
    | Ok assessment =>
        (* Save to database *)
        match saveAssessment (database_error run) (assessments world)
                (Assessment_object assessment) with
        | Throw message => (Throw message, world)
        | Ok saved =>
            (* Cache result (24 hours) *)
            let cache :=
              setCache (cache_write_fails run) (cache_write_time run) (redis world)
                cacheKey (Assessment_object assessment) 86400 in
            (Ok (Assessment_object assessment),
             {| redis := cache; assessments := saved |})
        end
    end.

Definition performAssessment (run : Run) (world : World) (params : Params)
  : result value * World :=
  match attempt run world params with
  | (Throw message, after) => (Throw ("Assessment failed: " ++ message), after)
  | done => done
  end.

(** ** Reference formulas

    The rules as the specification words them, to be compared with what
    the service computes from its tables. *)

(** Runoff coefficient by roof material; any other material is 0.85. *)
Definition tabulated_coefficient (roofType : string) : number :=
  if String.eqb roofType "concrete" then dec 90 100
  else if String.eqb roofType "tile" then dec 85 100
  else if String.eqb roofType "metal" then dec 95 100
  else if String.eqb roofType "asbestos" then dec 82 100
  else if String.eqb roofType "green" then dec 60 100
  else dec 85 100.

(** Default annual rainfall (mm) of the region a coordinate falls in. *)
Definition regional_default (lat lng : number) : number :=
  if (lat >? num 28)%js then num 650
  else if (lat <? num 15)%js then num 920
  else if (lng <? num 77)%js then num 550
  else if (lng >? num 85)%js then num 1200
  else num 850.

(** Storage ratio by building type; any other type is 0.15. *)
Definition storage_ratio (buildingType : string) : number :=
  if String.eqb buildingType "residential" then dec 15 100
  else if String.eqb buildingType "commercial" then dec 12 100
  else if String.eqb buildingType "industrial" then dec 10 100
  else if String.eqb buildingType "institutional" then dec 18 100
  else dec 15 100.

(** Water cost (INR per litre) of the region a coordinate falls in. *)
Definition cost_per_liter (lat lng : number) : number :=
  if (lat >? num 28)%js then dec 25 1000
  else if (lat <? num 15)%js then dec 30 1000
  else if (lng <? num 77)%js then dec 35 1000
  else if (lng >? num 85)%js then dec 20 1000
  else dec 28 1000.

(** Net annual savings: the annual water savings minus 5% maintenance on
    the total installation cost. *)
Definition net_savings (structures : list Structure)
  (waterPotential : WaterPotential) (location : Location) : number :=
  (wp_annual_liters waterPotential
     * cost_per_liter (loc_latitude location) (loc_longitude location)
   - sum_costs structures * dec 5 100)%js.

(** The overall score as the weighted sum of the five component scores:
    feasibility 0.30, economics [min(100, roi * 5)] 0.25, environmental
    0.20, technical 0.15, and a social score of 85 above 10000 litres a
    year, else 65, 0.10. *)
Definition weighted_sum (feasibility_score roi environmental_score
  technical_score annual_liters : number) : number :=
  (feasibility_score * dec 30 100
   + Math_min (num 100) (roi * num 5) * dec 25 100
   + environmental_score * dec 20 100
   + technical_score * dec 15 100
   + (if annual_liters >? num 10000 then num 85 else num 65) * dec 10 100)%js.

(** A financing list offers an option of the given type. *)
Definition offers (type : string) (options : list FinancingOption) : Prop :=
  exists o, In o options /\ fo_type o = type.

(** A recommendation list holds a structure with the given identifier. *)
Definition recommends (identifier : string) (l : list Structure) : Prop :=
  exists s, In s l /\ st_id s = identifier.

(** A request at Delhi (28.7 N, 77.1 E) that leaves every optional field
    out. *)
Definition delhi : Params :=
  {| latitude := dec 287 10; longitude := dec 771 10; address := None;
     buildingType := None; roofArea := None; roofType := None;
     householdSize := None; monthlyIncome := None; budgetRange := None;
     timeline := None; imageUrl := None; floors := None |}.

(** The end-to-end scenario of the specification: 120 sq. m of concrete
    roof on a residential building for four at Delhi. *)
Definition scenario : Params :=
  {| latitude := dec 287 10; longitude := dec 771 10; address := None;
     buildingType := Some "residential"; roofArea := Some (num 120);
     roofType := Some "concrete"; householdSize := Some (num 4);
     monthlyIncome := None; budgetRange := None; timeline := None;
     imageUrl := None; floors := None |}.

(** A run during which every collaborator of the ML service is
    unreachable, while Redis and the database work. *)
Definition outage : Run :=
  {| uuid := "5f0c1a52-8f5e-4c55-9d53-1f1f0e5a7c11";
     started_at := "2024-07-01T10:00:00.000Z";
     finished_at := "2024-07-01T10:00:01.250Z";
     elapsed_seconds := num 1;
     cache_read_time := 1719828000;
     cache_write_time := 1719828001;
     cache_read_fails := false;
     cache_write_fails := false;
     rainfall_service := Rejected "connect ECONNREFUSED 127.0.0.1:8000";
     roof_service := Rejected "connect ECONNREFUSED 127.0.0.1:8000";
     feasibility_service := Rejected "connect ECONNREFUSED 127.0.0.1:8000";
     database_error := None |}.

(** The same run, except that the feasibility analysis answers with a
    score of zero. *)
Definition zero_score : Run :=
  {| uuid := uuid outage;
     started_at := started_at outage;
     finished_at := finished_at outage;
     elapsed_seconds := elapsed_seconds outage;
     cache_read_time := cache_read_time outage;
     cache_write_time := cache_write_time outage;
     cache_read_fails := false;
     cache_write_fails := false;
     rainfall_service := rainfall_service outage;
     roof_service := roof_service outage;
     feasibility_service :=
       Resolved (VObj [("status", VStr "success");
                       ("feasibility_score", VNum (num 0));
                       ("technical_analysis",
                         VObj [("technical_score", VNum (num 80))])]);
     database_error := None |}.

(** The scenario with a roof of 295.7265 sq. m, for which the water
    saved pays exactly for the maintenance. *)
Definition break_even : Params :=
  {| latitude := latitude scenario; longitude := longitude scenario;
     address := None; buildingType := Some "residential";
     roofArea := Some (dec 2957265 10000); roofType := Some "concrete";
     householdSize := Some (num 4); monthlyIncome := None;
     budgetRange := None; timeline := None; imageUrl := None; floors := None |}.

(** The scenario without a roof area, which the estimation resolves to
    100 sq. m, and with that same area supplied. *)
Definition unmeasured : Params :=
  {| latitude := latitude scenario; longitude := longitude scenario;
     address := None; buildingType := Some "residential";
     roofArea := None; roofType := Some "concrete";
     householdSize := Some (num 4); monthlyIncome := None;
     budgetRange := None; timeline := None; imageUrl := None; floors := None |}.

Definition measured : Params :=
  {| latitude := latitude scenario; longitude := longitude scenario;
     address := None; buildingType := Some "residential";
     roofArea := Some (num 100); roofType := Some "concrete";
     householdSize := Some (num 4); monthlyIncome := None;
     budgetRange := None; timeline := None; imageUrl := None; floors := None |}.

(** A run one hour after [outage]. *)
Definition later : Run :=
  {| uuid := "c2a4e0d6-3b7f-4e0a-a1b9-6d2f9f3e8b42";
     started_at := "2024-07-01T11:00:00.000Z";
     finished_at := "2024-07-01T11:00:01.100Z";
     elapsed_seconds := num 1;
     cache_read_time := 1719831600;
     cache_write_time := 1719831601;
     cache_read_fails := false;
     cache_write_fails := false;
     rainfall_service := rainfall_service outage;
     roof_service := roof_service outage;
     feasibility_service := feasibility_service outage;
     database_error := None |}.

(** The run [outage], except that the insert into the database fails. *)
Definition store_down : Run :=
  {| uuid := uuid outage;
     started_at := started_at outage;
     finished_at := finished_at outage;
     elapsed_seconds := elapsed_seconds outage;
     cache_read_time := cache_read_time outage;
     cache_write_time := cache_write_time outage;
     cache_read_fails := false;
     cache_write_fails := false;
     rainfall_service := rainfall_service outage;
     roof_service := roof_service outage;
     feasibility_service := feasibility_service outage;
     database_error := Some "Connection terminated unexpectedly" |}.

(** An empty store, with an empty cache that is connected or not. *)
Definition fresh : World :=
  {| redis := {| isConnected := true; entries := [] |}; assessments := [] |}.

Definition offline : World :=
  {| redis := {| isConnected := false; entries := [] |}; assessments := [] |}.

(** [v.k1.k2...] *)
Fixpoint path (keys : list string) (v : value) : result value :=
  match keys with
  | [] => Ok v
  | k :: rest => x <- get k v ;; path rest x
  end.

(** What a cache hit returns for the entry [cached] and the identifier
    drawn: [{...cached, id, cached: true}]. *)
Definition served_from_cache (cached : value) (assessmentId : string) : value :=
  VObj (set_prop "cached" (VBool true)
          (set_prop "id" (VStr assessmentId) (spread cached))).

(** Default roof area (sq. m) by building type; any other type, or none,
    is 100. *)
Definition default_roof_area (buildingType : option string) : number :=
  match buildingType with
  | Some t =>
      if String.eqb t "residential" then num 100
      else if String.eqb t "commercial" then num 250
      else if String.eqb t "industrial" then num 500
      else if String.eqb t "institutional" then num 200
      else num 100
  | None => num 100
  end.

(** The building types the service has tables for. *)
Definition known_building_type (t : string) : bool :=
  String.eqb t "residential" || String.eqb t "commercial"
  || String.eqb t "industrial" || String.eqb t "institutional".

(** The request with its building type replaced by "residential". *)
Definition as_residential (params : Params) : Params :=
  {| latitude := latitude params; longitude := longitude params;
     address := address params; buildingType := Some "residential";
     roofArea := roofArea params; roofType := roofType params;
     householdSize := householdSize params;
     monthlyIncome := monthlyIncome params; budgetRange := budgetRange params;
     timeline := timeline params; imageUrl := imageUrl params;
     floors := floors params |}.

(** A request for a warehouse that says nothing of its occupancy, and the
    same for twelve people. *)
Definition warehouse : Params :=
  {| latitude := latitude scenario; longitude := longitude scenario;
     address := None; buildingType := Some "warehouse";
     roofArea := Some (num 120); roofType := Some "concrete";
     householdSize := None; monthlyIncome := None;
     budgetRange := None; timeline := None; imageUrl := None; floors := None |}.

Definition staffed_warehouse : Params :=
  {| latitude := latitude scenario; longitude := longitude scenario;
     address := None; buildingType := Some "warehouse";
     roofArea := None; roofType := Some "concrete";
     householdSize := Some (num 12); monthlyIncome := None;
     budgetRange := None; timeline := None; imageUrl := None; floors := None |}.

(** A store whose cache holds an entry for the scenario but cannot be
    reached. *)
Definition unreachable : World :=
  {| redis := {| isConnected := false;
                 entries := [(_generateCacheKey scenario,
                              (1719914400%Z, VObj [("id", VStr "stale")]))] |};
     assessments := [] |}.

(** The costs of a list of structures added up as rationals, a cost that
    is not finite counting for nothing. *)
Definition total_of (l : list Structure) : Q :=
  fold_right (fun s q => match estimated_cost s with Fin c => c + q | _ => q end) 0 l.

(** The run [outage], except that the rainfall call is answered, by a body
    that holds no prediction. *)
Definition no_prediction : Run :=
  {| uuid := uuid outage;
     started_at := started_at outage;
     finished_at := finished_at outage;
     elapsed_seconds := elapsed_seconds outage;
     cache_read_time := cache_read_time outage;
     cache_write_time := cache_write_time outage;
     cache_read_fails := false;
     cache_write_fails := false;
     rainfall_service := Resolved (VObj [("detail", VStr "model not loaded")]);
     roof_service := roof_service outage;
     feasibility_service := feasibility_service outage;
     database_error := None |}.

(** The action the service files under a payback period below three
    years. *)
Definition immediate_implementation : Action :=
  {| action := "Immediate Implementation";
     reason := "Excellent ROI with payback period under 3 years";
     urgency := "high" |}.

(** * Properties *)

(** ** Numbers *)

Lemma le_Fin (a b : Q) : (Fin a <=? Fin b)%js = true <-> a <= b.
Proof.
  unfold JS.le; simpl. rewrite Qle_alt.
  destruct (a ?= b); split; intro H; try reflexivity; try discriminate.
  now elim H.
Qed.

Lemma lt_Fin (a b : Q) : (Fin a <? Fin b)%js = true <-> a < b.
Proof.
  unfold JS.lt; simpl. rewrite Qlt_alt.
  destruct (a ?= b); split; intro H; try reflexivity; discriminate.
Qed.

Lemma gt_Fin (a b : Q) : (Fin a >? Fin b)%js = true <-> b < a.
Proof.
  unfold JS.gt; simpl. rewrite (Qgt_alt a b).
  destruct (a ?= b); split; intro H; try reflexivity; discriminate.
Qed.

Lemma ge_Fin (a b : Q) : (Fin a >=? Fin b)%js = true <-> b <= a.
Proof.
  unfold JS.ge; simpl. rewrite (Qge_alt a b).
  destruct (a ?= b); split; intro H; try reflexivity; try discriminate.
  now elim H.
Qed.

Lemma Qzero_b_false (q : Q) : Qzero_b q = false <-> ~ q == 0.
Proof.
  unfold Qzero_b. rewrite <- Bool.not_true_iff_false, Qeq_bool_iff. tauto.
Qed.

Lemma Qzero_b_true (q : Q) : Qzero_b q = true <-> q == 0.
Proof. unfold Qzero_b. apply Qeq_bool_iff. Qed.

Lemma round_le (a b : Q) :
  a <= b -> Le (Math_round (Fin a)) (Math_round (Fin b)).
Proof.
  intro H. unfold Le, Math_round, of_Z. apply le_Fin.
  rewrite <- Zle_Qle. apply Qfloor_resp_le. lra.
Qed.

(** The service's lookup of a roof material agrees with the tabulated
    coefficient. *)
Lemma coefficient_tabulated (roofType : string) :
  entry_or roofType runoffCoefficients (dec 85 100) = tabulated_coefficient roofType.
Proof.
  unfold entry_or, tabulated_coefficient, runoffCoefficients, entry.
  repeat (destruct (String.eqb roofType _); [reflexivity|]).
  reflexivity.
Qed.

Lemma coefficient_nonneg (roofType : string) :
  exists c, tabulated_coefficient roofType = Fin c /\ 0 < c /\ c <= 1.
Proof.
  unfold tabulated_coefficient.
  repeat (destruct (String.eqb roofType _);
          [eexists; split; [reflexivity | split; [reflexivity | discriminate]] |]).
  eexists; split; [reflexivity | split; [reflexivity | discriminate]].
Qed.

Lemma mul_Fin (a b : Q) : (Fin a * Fin b)%js = Fin (Qred (a * b)).
Proof. reflexivity. Qed.

Lemma add_Fin (a b : Q) : (Fin a + Fin b)%js = Fin (Qred (a + b)).
Proof. reflexivity. Qed.

Lemma sub_Fin (a b : Q) : (Fin a - Fin b)%js = Fin (Qred (a + Qred (- b))).
Proof. reflexivity. Qed.

Lemma div_Fin (a b : Q) : ~ b == 0 -> (Fin a / Fin b)%js = Fin (Qred (a / b)).
Proof.
  intro H. unfold JS.div. apply Qzero_b_false in H. now rewrite H.
Qed.

Lemma div_num (a : Q) (z : Z) :
  z <> 0%Z -> (Fin a / num z)%js = Fin (Qred (a / inject_Z z)).
Proof.
  intro H. apply div_Fin. intro E. apply H.
  unfold Qeq in E. simpl in E. lia.
Qed.

(** Rounding and the two averages preserve the order of the unrounded
    annual figure. *)
Lemma potential_fields_le (x y : Q) :
  x <= y ->
  Le (Math_round (Fin x)) (Math_round (Fin y)) /\
  Le (Math_round (Fin x / num 365)) (Math_round (Fin y / num 365)) /\
  Le (Math_round (Fin x / num 12)) (Math_round (Fin y / num 12)).
Proof.
  intro H. split; [now apply round_le|].
  rewrite !div_num by discriminate.
  split; apply round_le; rewrite !Qred_correct;
    apply Qmult_le_compat_r; try assumption; discriminate.
Qed.

(** ** Water potential *)





(** ** Rainfall fallback *)

(** The regional table read through [_determineRegion] is the default of
    the region rule. *)
Lemma regional_rainfall_default (lat lng : number) :
  entry_or (_determineRegion lat lng) regionalRainfall (num 850)
  = regional_default lat lng.
Proof.
  unfold _determineRegion, regional_default.
  destruct (lat >? num 28)%js; [reflexivity|].
  destruct (lat <? num 15)%js; [reflexivity|].
  destruct (lng <? num 77)%js; [reflexivity|].
  destruct (lng >? num 85)%js; reflexivity.
Qed.

(** C3, as worded, fails for a malformed response: a body that is
    delivered is handed on unchecked, so it carries no "estimated"
    provenance and the later read of the rainfall total raises. *)
Lemma rainfall_malformed_refuted :
  let body := VObj [("detail", VStr "model not loaded")] in
  let r := _getRainfallData (Resolved body) delhi in
  get "status" r = Ok VUndefined /\
  (annual_prediction <- get "annual_prediction" r ;;
   get "total_rainfall" annual_prediction)
  = Throw "Cannot read properties of undefined (reading 'total_rainfall')".
Proof. split; reflexivity. Qed.

(** C3, amended: for every coordinate, whenever the call to the rainfall
    collaborator is rejected (time-out, transport error, error status), the
    estimator returns provenance "estimated" and the regional default
    (latitude > 28: 650; latitude < 15: 920; otherwise longitude < 77: 550;
    longitude > 85: 1200; else 850), and this fallback raises nothing; a
    response that is delivered is returned as received. *)
Theorem rainfall_fallback (message : string) (params : Params) :
  let r := _getRainfallData (Rejected message) params in
  get "status" r = Ok (VStr "estimated") /\
  (annual_prediction <- get "annual_prediction" r ;;
   get "total_rainfall" annual_prediction)
  = Ok (VNum (regional_default (latitude params) (longitude params))) /\
  forall data, _getRainfallData (Resolved data) params = data.
Proof.
  cbn -[regional_default entry_or _determineRegion].
  rewrite regional_rainfall_default. repeat split.
Qed.

(** ** Financing options *)

Lemma gt_nonneg_truthy (i : number) (q : Q) :
  0 <= q -> (i >? Fin q)%js = true -> truthy_number i = true.
Proof.
  intros Hq H. destruct i as [x| | |]; try reflexivity; try discriminate.
  apply gt_Fin in H. simpl. apply Bool.negb_true_iff, Qzero_b_false. lra.
Qed.

Lemma given_gt (income : option number) (q : Q) :
  0 <= q ->
  (exists i, given income = Some i /\ (i >? Fin q)%js = true) <->
  (exists i, income = Some i /\ (i >? Fin q)%js = true).
Proof.
  intro Hq. unfold given. split; intros (i & Hi & Hgt).
  - destruct income as [n|]; [|discriminate].
    destruct (truthy_number n); [|discriminate].
    injection Hi as <-. now exists n.
  - subst income. exists i. now rewrite (gt_nonneg_truthy i q).
Qed.

(** C9, as worded, fails: the bank-loan entry is listed at every cost; at a
    cost of 10000, which is not above 50000, it is there, marked
    infeasible. *)
Lemma financing_bank_loan_refuted :
  (num 10000 >? num 50000)%js = false /\
  In {| fo_type := "bank_loan"; feasible := false; duration := None;
        coverage := None; interest_rate := Some "8-12%" |}
     (_getFinancingOptions (num 10000) None).
Proof. split; [reflexivity | simpl; tauto]. Qed.

(** The list, part by part. *)
Lemma financing_options_parts (totalCost : number) (monthlyIncome : option number) :
  _getFinancingOptions totalCost monthlyIncome =
  ((if (totalCost <? num 20000)%js
    then [{| fo_type := "self_funded"; feasible := true; duration := None;
             coverage := None; interest_rate := None |}]
    else []) ++
   (match given monthlyIncome with
    | Some income =>
        if (income >? totalCost / num 24)%js
        then [{| fo_type := "monthly_installments"; feasible := true;
                 duration := Some "24 months"; coverage := None;
                 interest_rate := None |}]
        else []
    | None => []
    end) ++
   [{| fo_type := "government_subsidy"; feasible := true; duration := None;
       coverage := Some "30-50%"; interest_rate := None |};
    {| fo_type := "bank_loan"; feasible := (totalCost >? num 50000)%js;
       duration := None; coverage := None; interest_rate := Some "8-12%" |}])%list.
Proof.
  unfold _getFinancingOptions, push.
  destruct (totalCost <? num 20000)%js;
    destruct (given monthlyIncome) as [i|];
    try destruct (i >? totalCost / num 24)%js; reflexivity.
Qed.

Lemma offers_app (type : string) (l1 l2 : list FinancingOption) :
  offers type (l1 ++ l2) <-> offers type l1 \/ offers type l2.
Proof.
  unfold offers. split.
  - intros (o & Ho & Ht). apply in_app_or in Ho as [Ho | Ho]; eauto.
  - intros [(o & Ho & Ht) | (o & Ho & Ht)]; exists o; split; auto;
      apply in_or_app; auto.
Qed.

Lemma offers_nil (type : string) : offers type [] <-> False.
Proof. unfold offers. split; [intros (o & [] & _) | tauto]. Qed.

Lemma offers_cons (type : string) (o : FinancingOption) (l : list FinancingOption) :
  offers type (o :: l) <-> fo_type o = type \/ offers type l.
Proof.
  unfold offers. split.
  - intros (x & [-> | Hx] & Ht); eauto.
  - intros [Ht | (x & Hx & Ht)]; [exists o | exists x]; simpl; auto.
Qed.

(** C9, amended: for every non-negative total installation cost and
    optional monthly income, the list has a self-funded option exactly when
    cost < 20000, an installment plan exactly when a monthly income is
    supplied that exceeds cost/24, always the government subsidy at 30-50%,
    and always a bank-loan entry, whose [feasible] flag is true exactly when
    cost > 50000. *)
Theorem financing_options_rules (cost : Q) (income : option number) :
  0 <= cost ->
  let options := _getFinancingOptions (Fin cost) income in
  (offers "self_funded" options <-> cost < 20000) /\
  (offers "monthly_installments" options <->
     exists i, income = Some i /\ (i >? Fin cost / num 24)%js = true) /\
  In {| fo_type := "government_subsidy"; feasible := true; duration := None;
        coverage := Some "30-50%"; interest_rate := None |} options /\
  offers "bank_loan" options /\
  (forall o, In o options -> fo_type o = "bank_loan" ->
     (feasible o = true <-> 50000 < cost)).
Proof.
  intros Hcost options.
  assert (Hdiv : (Fin cost / num 24)%js = Fin (Qred (cost / 24)))
    by (apply div_num; discriminate).
  assert (Hq : 0 <= Qred (cost / 24))
    by (rewrite Qred_correct; apply Qle_shift_div_l; [reflexivity | lra]).
  rewrite Hdiv, <- (given_gt income _ Hq).
  subst options. rewrite financing_options_parts, Hdiv.
  pose proof (lt_Fin cost 20000) as Hself.
  pose proof (gt_Fin cost 50000) as Hloan.
  change (Fin 20000) with (num 20000) in Hself.
  change (Fin 50000) with (num 50000) in Hloan.
  split; [split | split; [split | split; [|split]]].
  - rewrite !offers_app, !offers_cons, offers_nil.
    intros [H | [H | [H | [H | []]]]]; try discriminate H.
    + destruct (Fin cost <? num 20000)%js.
      * now apply Hself.
      * now apply offers_nil in H.
    + destruct (given income) as [i|]; [destruct (i >? _)%js|];
        rewrite ?offers_cons, offers_nil in H;
        intuition discriminate.
  - intro H. apply Hself in H. rewrite H, offers_app, offers_cons. auto.
  - rewrite !offers_app, !offers_cons, offers_nil.
    intros [H | [H | [H | [H | []]]]]; try discriminate H.
    + destruct (Fin cost <? num 20000)%js;
        rewrite ?offers_cons, offers_nil in H; intuition discriminate.
    + destruct (given income) as [i|]; [destruct (i >? _)%js eqn:Hi|].
      * now exists i.
      * now apply offers_nil in H.
      * now apply offers_nil in H.
  - intros (i & -> & ->). rewrite !offers_app, !offers_cons. auto.
  - apply in_or_app; right. apply in_or_app; right. simpl; auto.
  - rewrite !offers_app, !offers_cons. auto.
  - intros o Ho Ht.
    assert (feasible o = (Fin cost >? num 50000)%js) as ->; [|exact Hloan].
    apply in_app_or in Ho as [Ho | Ho]; [|apply in_app_or in Ho as [Ho | Ho]].
    + destruct (Fin cost <? num 20000)%js; [destruct Ho as [<- | []]|destruct Ho].
      discriminate Ht.
    + destruct (given income) as [i|]; [destruct (i >? _)%js|];
        try destruct Ho as [<- | []]; try discriminate Ht; destruct Ho.
    + destruct Ho as [<- | [<- | []]]; [discriminate Ht | reflexivity].
Qed.

Lemma financing_options_rules_witness :
  0 <= 30000 /\
  let options := _getFinancingOptions (Fin 30000) (Some (num 2000)) in
  (offers "self_funded" options <-> 30000 < 20000) /\
  (offers "monthly_installments" options <->
     exists i, Some (num 2000) = Some i /\ (i >? Fin 30000 / num 24)%js = true) /\
  In {| fo_type := "government_subsidy"; feasible := true; duration := None;
        coverage := Some "30-50%"; interest_rate := None |} options /\
  offers "bank_loan" options /\
  (forall o, In o options -> fo_type o = "bank_loan" ->
     (feasible o = true <-> 50000 < 30000)).
Proof.
  split; [discriminate|].
  apply (financing_options_rules 30000 (Some (num 2000))). discriminate.
Defined.

(** ** Structure recommendations *)

Lemma storage_ratio_lookup (buildingType : string) :
  entry_or buildingType storageRecommendations (dec 15 100)
  = storage_ratio buildingType.
Proof.
  unfold entry_or, storage_ratio, storageRecommendations, entry.
  repeat (destruct (String.eqb buildingType _); [reflexivity|]).
  reflexivity.
Qed.

(** Exhibits the member of an explicit list that meets the conditions. *)
Ltac pick_structure :=
  unfold recommends;
  match goal with
  | |- exists s, In s ?l /\ _ =>
      match l with
      | context [ ?x :: _ ] =>
          exists x; split; [cbn [In]; auto 10 | repeat split; reflexivity]
      end
  end.

Ltac in_structures :=
  repeat match goal with
         | H : In _ (_ :: _) |- _ => destruct H as [<- | H]
         | H : In _ [] |- _ => destruct H
         | H : st_id _ = _ |- _ => cbn [st_id] in H; try discriminate H; clear H
         | H : recommends _ _ |- _ => destruct H as (? & ? & ?)
         end.



(** ** Installation cost and payback *)

Lemma water_cost_lookup (lat lng : number) :
  (entry_or (_determineRegion lat lng) waterCosts (num 28) / num 1000)%js
  = cost_per_liter lat lng.
Proof.
  unfold _determineRegion, cost_per_liter.
  destruct (lat >? num 28)%js; [reflexivity|].
  destruct (lat <? num 15)%js; [reflexivity|].
  destruct (lng <? num 77)%js; [reflexivity|].
  destruct (lng >? num 85)%js; reflexivity.
Qed.

(** A tank is only recommended with a finite capacity between 500 and 5000
    litres, so its cost is a finite amount of at least 12500. *)
Lemma tank_cost_bound (recommended : number) :
  (recommended >? num 500)%js = true ->
  exists c, Math_round (Math_min (num 5000) recommended * num 15 + num 5000)%js = Fin c
            /\ 12500 <= c.
Proof.
  intro H. change (num 500) with (Fin 500) in H.
  change (num 15) with (Fin 15). change (num 5000) with (Fin 5000).
  assert (exists x, Math_min (Fin 5000) recommended = Fin x /\ 500 < x) as (x & -> & Hx).
  { destruct recommended as [r| | |]; try discriminate H.
    - apply gt_Fin in H. unfold Math_min, cmp.
      destruct (5000 ?= r) eqn:E; eexists; (split; [reflexivity|]);
        try assumption; reflexivity.
    - exists 5000. split; reflexivity. }
  rewrite mul_Fin, add_Fin. unfold Math_round, of_Z.
  eexists; split; [reflexivity|].
  change 12500 with (inject_Z 12500). rewrite <- Zle_Qle.
  rewrite <- (Qfloor_Z 12500) at 1.
  apply Qfloor_resp_le. rewrite !Qred_correct. change (inject_Z 12500) with 12500. lra.
Qed.

Lemma cost_per_liter_finite (lat lng : number) :
  exists p, cost_per_liter lat lng = Fin p /\ 0 < p.
Proof.
  unfold cost_per_liter.
  repeat match goal with
         | |- context [if ?b then _ else _] => destruct b
         end; eexists; split; reflexivity.
Qed.

Lemma min_Fin (a b : Q) : exists m, Math_min (Fin a) (Fin b) = Fin m.
Proof. unfold Math_min, cmp. destruct (a ?= b); eexists; reflexivity. Qed.

(** The sum of the recommended structures' costs is finite and at least
    6500. *)
Lemma recommended_cost_bound (waterPotential : WaterPotential)
  (waterDemand : WaterDemand) (buildingType budgetRange : string) :
  exists total,
    sum_costs (_generateStructureRecommendations
                 waterPotential waterDemand buildingType budgetRange) = Fin total
    /\ 6500 <= total.
Proof.
  unfold _generateStructureRecommendations. rewrite storage_ratio_lookup.
  set (recommended := (wp_annual_liters waterPotential * storage_ratio buildingType)%js).
  set (excess := (wp_annual_liters waterPotential >? _)%js).
  cbv zeta.
  destruct (recommended >? num 500)%js eqn:E.
  - destruct (tank_cost_bound recommended E) as (c & Hc & Hb).
    destruct excess; destruct (String.eqb budgetRange "high");
      unfold push, sum_costs; cbn [app fold_left estimated_cost]; rewrite Hc;
      change (num 0) with (Fin 0); change (num 2500) with (Fin 2500);
      change (num 4000) with (Fin 4000); change (num 8000) with (Fin 8000);
      change (num 5000) with (Fin 5000); rewrite !add_Fin;
      (eexists; split; [reflexivity|]); rewrite !Qred_correct; lra.
  - destruct excess; destruct (String.eqb budgetRange "high");
      (eexists; split; [reflexivity|]); discriminate.
Qed.

(** The diverter and the filtration stage are recommended whatever the
    inputs. *)
Lemma always_recommended (waterPotential : WaterPotential)
  (waterDemand : WaterDemand) (buildingType budgetRange : string) :
  let l := _generateStructureRecommendations
             waterPotential waterDemand buildingType budgetRange in
  (exists s, In s l /\ st_id s = "first_flush" /\ estimated_cost s = num 2500) /\
  (exists s, In s l /\ st_id s = "filtration" /\
     estimated_cost s = (if String.eqb budgetRange "high" then num 8000 else num 4000)).
Proof.
  unfold _generateStructureRecommendations.
  set (recommended := (wp_annual_liters waterPotential * _)%js).
  set (excess := (wp_annual_liters waterPotential >? _)%js).
  cbv zeta.
  destruct (recommended >? num 500)%js; destruct excess;
    unfold push; cbn [app]; split; pick_structure.
Qed.

(** C10, as worded, fails for the payback period, which divides by the net
    annual savings rather than by the total cost: a roof of 200.2315 sq. m
    of concrete at Kolkata (regional rainfall 1200 mm, water at 0.02 INR
    per litre) yields 216250 litres, savings of 4325 against 4325 of
    maintenance, and the division by zero gives [Infinity]. *)
Lemma payback_division_by_zero :
  let potential := _calculateWaterPotential (dec 2002315 10000) (num 1200) "concrete" in
  let demand := _calculateWaterDemand "residential" (num 4) in
  let l := _generateStructureRecommendations potential demand "residential" "medium" in
  let kolkata := {| loc_latitude := dec 225 10; loc_longitude := dec 883 10;
                    loc_address := None |} in
  wp_annual_liters potential = num 216250 /\
  sum_costs l = num 86500 /\
  net_savings l potential kolkata = num 0 /\
  payback_period_years (_calculateEconomics l potential kolkata None) = PosInf.
Proof. vm_compute. repeat split. Qed.

(** C10, amended: for every input the recommended list holds the First
    Flush Diverter (cost 2500) and the Filtration stage (cost at least
    4000), so the total installation cost summed by the Economics
    Calculator is a finite amount of at least 6500; hence the divisions by
    the total cost, in the ROI percentage and in the affordability score,
    are never divisions by zero. *)
Theorem installation_cost_positive (waterPotential : WaterPotential)
  (waterDemand : WaterDemand) (buildingType budgetRange : string) :
  let l := _generateStructureRecommendations
             waterPotential waterDemand buildingType budgetRange in
  (exists s, In s l /\ st_id s = "first_flush" /\ estimated_cost s = num 2500) /\
  (exists s c, In s l /\ st_id s = "filtration" /\ estimated_cost s = Fin c /\ 4000 <= c) /\
  exists total,
    sum_costs l = Fin total /\ 6500 <= total /\ ~ total == 0 /\
    forall (location : Location) (monthlyIncome : option number),
      let e := _calculateEconomics l waterPotential location monthlyIncome in
      total_installation_cost e = Math_round (Fin total) /\
      (is_finite (wp_annual_liters waterPotential) = true ->
       is_finite (roi_percentage e) = true) /\
      (forall income, monthlyIncome = Some (Fin income) ->
       is_finite (affordability_score e) = true).
Proof.
  intro l.
  destruct (always_recommended waterPotential waterDemand buildingType budgetRange)
    as ((ff & Hff & Hid & Hcost) & (fi & Hfi & Hfid & Hfc)).
  split; [exists ff; auto|].
  split.
  { exists fi. destruct (String.eqb budgetRange "high");
      eexists; (split; [exact Hfi|]); (split; [exact Hfid|]);
      (split; [exact Hfc|]); discriminate. }
  destruct (recommended_cost_bound waterPotential waterDemand buildingType budgetRange)
    as (total & Hsum & Hbound).
  fold l in Hsum. exists total.
  assert (Hnz : ~ total == 0) by lra.
  split; [assumption|]. split; [assumption|]. split; [assumption|].
  intros location monthlyIncome e. subst e. split; [|split].
  - unfold _calculateEconomics; cbn [total_installation_cost]. now rewrite Hsum.
  - intro Hfin. destruct (wp_annual_liters waterPotential) as [liters| | |] eqn:Hl;
      try discriminate Hfin.
    unfold _calculateEconomics; cbn [roi_percentage].
    rewrite water_cost_lookup, Hsum, Hl.
    destruct (cost_per_liter_finite (loc_latitude location) (loc_longitude location))
      as (p & -> & _).
    change (dec 5 100) with (Fin (1 # 20)).
    rewrite !mul_Fin, sub_Fin, (div_Fin _ total Hnz).
    change (num 100) with (Fin 100). rewrite mul_Fin.
    change (num 10) with (Fin 10). rewrite mul_Fin.
    unfold Math_round, of_Z. rewrite div_Fin by discriminate. reflexivity.
  - intros income ->. unfold _calculateEconomics; cbn [affordability_score].
    rewrite Hsum. unfold given. destruct (truthy_number (Fin income)); [|reflexivity].
    change (num 12) with (Fin 12). change (num 50) with (Fin 50).
    change (num 100) with (Fin 100).
    rewrite mul_Fin, (div_Fin _ total Hnz), mul_Fin.
    destruct (min_Fin 100 (Qred (Qred (Qred (income * 12) / total) * 50))) as (m & ->).
    reflexivity.
Qed.

Lemma div_zero (a b : Q) : 0 < a -> b == 0 -> (Fin a / Fin b)%js = PosInf.
Proof.
  intros Ha Hb. unfold JS.div.
  apply Qzero_b_true in Hb. rewrite Hb.
  assert (Qzero_b a = false) as -> by (apply Qzero_b_false; lra).
  unfold Qpos_b.
  assert (Qle_bool a 0 = false) as ->; [|reflexivity].
  apply Bool.not_true_iff_false. rewrite Qle_bool_iff. lra.
Qed.




(** ** Overall score *)

Ltac decide_thresholds :=
  repeat match goal with
         | H : true = true <-> ?P |- _ =>
             assert P by (apply H; reflexivity); clear H
         | H : false = true <-> ?P |- _ =>
             assert (~ P) by (let X := fresh in intro X; apply H in X; discriminate X);
             clear H
         end;
  repeat split; intros; try discriminate; try reflexivity; try lra.

Lemma grade_thresholds (s : Q) :
  (_getGrade (Fin s) = "A+" <-> 90 <= s) /\
  (_getGrade (Fin s) = "A" <-> 80 <= s < 90) /\
  (_getGrade (Fin s) = "B+" <-> 70 <= s < 80) /\
  (_getGrade (Fin s) = "B" <-> 60 <= s < 70) /\
  (_getGrade (Fin s) = "C+" <-> 50 <= s < 60) /\
  (_getGrade (Fin s) = "C" <-> s < 50).
Proof.
  unfold _getGrade.
  pose proof (ge_Fin s 90) as H90. pose proof (ge_Fin s 80) as H80.
  pose proof (ge_Fin s 70) as H70. pose proof (ge_Fin s 60) as H60.
  pose proof (ge_Fin s 50) as H50.
  change (Fin 90) with (num 90) in H90. change (Fin 80) with (num 80) in H80.
  change (Fin 70) with (num 70) in H70. change (Fin 60) with (num 60) in H60.
  change (Fin 50) with (num 50) in H50.
  destruct (Fin s >=? num 90)%js; [decide_thresholds|].
  destruct (Fin s >=? num 80)%js; [decide_thresholds|].
  destruct (Fin s >=? num 70)%js; [decide_thresholds|].
  destruct (Fin s >=? num 60)%js; [decide_thresholds|].
  destruct (Fin s >=? num 50)%js; decide_thresholds.
Qed.

Lemma recommendation_thresholds (s : Q) :
  (_getRecommendationLevel (Fin s) = "Highly Recommended" <-> 80 <= s) /\
  (_getRecommendationLevel (Fin s) = "Recommended" <-> 60 <= s < 80) /\
  (_getRecommendationLevel (Fin s) = "Consider with Modifications" <-> 40 <= s < 60) /\
  (_getRecommendationLevel (Fin s) = "Not Recommended" <-> s < 40).
Proof.
  unfold _getRecommendationLevel.
  pose proof (ge_Fin s 80) as H80. pose proof (ge_Fin s 60) as H60.
  pose proof (ge_Fin s 40) as H40.
  change (Fin 80) with (num 80) in H80. change (Fin 60) with (num 60) in H60.
  change (Fin 40) with (num 40) in H40.
  destruct (Fin s >=? num 80)%js; [decide_thresholds|].
  destruct (Fin s >=? num 60)%js; [decide_thresholds|].
  destruct (Fin s >=? num 40)%js; decide_thresholds.
Qed.




(** ** Persistence failure *)

(** C4, as worded, fails: in the end-to-end scenario the computation
    completes, the insert fails, and the call raises; no result is handed
    back and nothing is cached. *)
Lemma persistence_failure_refuted :
  (exists a, pipeline store_down scenario (uuid store_down) = Ok a) /\
  performAssessment store_down fresh scenario
  = (Throw "Assessment failed: Connection terminated unexpectedly", fresh).
Proof.
  split; [eexists; vm_compute; reflexivity | vm_compute; reflexivity].
Qed.

(** C4, amended: for every request that misses the cache and whose
    computation completes but whose store write fails, [performAssessment]
    raises "Assessment failed: " followed by the message of the store's
    error; the computed result is not returned, and neither the store nor
    the cache is changed. *)
Theorem persistence_failure_is_raised (run : Run) (world : World)
  (params : Params) (assessment : Assessment) (message : string) :
  truthy (getCache (cache_read_fails run) (cache_read_time run) (redis world)
            (_generateCacheKey params)) = false ->
  pipeline run params (uuid run) = Ok assessment ->
  database_error run = Some message ->
  performAssessment run world params
  = (Throw ("Assessment failed: " ++ message), world).
Proof.
  intros Hmiss Hcomputed Hstore.
  unfold performAssessment, attempt.
  rewrite Hmiss, Hcomputed. unfold saveAssessment. rewrite Hstore. reflexivity.
Qed.

Lemma persistence_failure_is_raised_witness :
  exists a,
    (truthy (getCache (cache_read_fails store_down) (cache_read_time store_down)
               (redis fresh) (_generateCacheKey scenario)) = false /\
     pipeline store_down scenario (uuid store_down) = Ok a /\
     database_error store_down = Some "Connection terminated unexpectedly") /\
    performAssessment store_down fresh scenario
    = (Throw ("Assessment failed: " ++ "Connection terminated unexpectedly"), fresh).
Proof.
  eexists. split; [split; [reflexivity | split; [vm_compute; reflexivity | reflexivity]]|].
  match goal with
  | |- performAssessment _ _ _ = _ =>
      eapply (persistence_failure_is_raised store_down fresh scenario);
        [reflexivity | vm_compute; reflexivity | reflexivity]
  end.
Defined.

(** ** Cache hits *)

(** A cached assessment is an object, hence truthy. *)
Lemma cached_assessment_truthy (a : Assessment) :
  truthy (json_roundtrip (Assessment_object a)) = true.
Proof. reflexivity. Qed.

(** C1, as worded, fails in four ways.  A hit carries a fresh [id], and
    what it returns went through JSON, which has no [Infinity]: for the
    break-even roof the first result holds a payback period of [Infinity]
    and the second [null].  When Redis is not connected the second call
    computes anew: it bears no marker, has its own timestamp, and is stored
    a second time.  And the key holds the roof area as supplied, not as
    resolved: a request without an area, resolved to 100 sq. m, and one that
    supplies 100 sq. m do not share an entry. *)
Lemma cached_result_refuted :
  (exists v1 w1 v2 w2,
     performAssessment outage fresh break_even = (Ok v1, w1) /\
     performAssessment later w1 break_even = (Ok v2, w2) /\
     get "cached" v2 = Ok (VBool true) /\
     get "id" v1 = Ok (VStr (uuid outage)) /\
     get "id" v2 = Ok (VStr (uuid later)) /\
     uuid outage <> uuid later /\
     path ["steps"; "economics"; "payback_period_years"] v1 = Ok (VNum PosInf) /\
     path ["steps"; "economics"; "payback_period_years"] v2 = Ok VNull) /\
  (exists v1 w1 v2 w2,
     performAssessment outage offline scenario = (Ok v1, w1) /\
     performAssessment later w1 scenario = (Ok v2, w2) /\
     get "cached" v2 = Ok VUndefined /\
     get "timestamp" v1 = Ok (VStr (started_at outage)) /\
     get "timestamp" v2 = Ok (VStr (started_at later)) /\
     List.length (assessments w2) = 2%nat) /\
  (exists v1 w1 v2 w2,
     performAssessment outage fresh unmeasured = (Ok v1, w1) /\
     performAssessment later w1 measured = (Ok v2, w2) /\
     path ["building"; "roof_area"] v1 = Ok (VNum (num 100)) /\
     path ["building"; "roof_area"] v2 = Ok (VNum (num 100)) /\
     get "cached" v2 = Ok VUndefined /\
     List.length (assessments w2) = 2%nat).
Proof.
  split; [|split]; do 4 eexists;
    (split; [vm_compute; reflexivity|]);
    (split; [vm_compute; reflexivity|]);
    repeat split; try (vm_compute; reflexivity); discriminate.
Qed.

(** C1, amended: for two consecutive calls with identical latitude,
    longitude, building type and supplied roof area, the first of which
    misses the cache, completes and stores its result (Redis connected, the
    write not failing), and the second of which reads the cache (the read
    not failing) before the 24 hours of the entry have elapsed, the second
    call returns the first result as JSON gives it back (a non-finite
    number is [null]) with a fresh [id] and [cached: true]; it
    short-circuits the pipeline: whatever the collaborators and the
    database would answer, nothing is computed, persisted or cached
    again. *)
Theorem cache_hit_returns_first_result (run1 run2 : Run) (world after : World)
  (params1 params2 : Params) (first : value) :
  same_key (_generateCacheKey params2) (_generateCacheKey params1) = true ->
  isConnected (redis world) = true ->
  truthy (getCache (cache_read_fails run1) (cache_read_time run1) (redis world)
            (_generateCacheKey params1)) = false ->
  cache_write_fails run1 = false ->
  performAssessment run1 world params1 = (Ok first, after) ->
  cache_read_fails run2 = false ->
  (cache_read_time run2 < cache_write_time run1 + 86400)%Z ->
  performAssessment run2 after params2
  = (Ok (served_from_cache (json_roundtrip first) (uuid run2)), after).
Proof.
  intros Hkey Hconnected Hmiss Hwrite Hfirst Hread Hfresh.
  unfold performAssessment, attempt in Hfirst. rewrite Hmiss in Hfirst.
  destruct (pipeline run1 params1 (uuid run1)) as [a|m]; [|discriminate Hfirst].
  unfold saveAssessment in Hfirst.
  destruct (database_error run1); [discriminate Hfirst|].
  injection Hfirst as <- <-.
  unfold performAssessment, attempt, setCache, getCache; cbn [redis isConnected entries].
  rewrite Hconnected, Hwrite, Hread; cbn [negb isConnected entries find_entry].
  rewrite Hkey. apply Z.ltb_lt in Hfresh. rewrite Hfresh.
  rewrite cached_assessment_truthy. reflexivity.
Qed.

Lemma cache_hit_returns_first_result_witness :
  exists first after,
    (same_key (_generateCacheKey scenario) (_generateCacheKey scenario) = true /\
     isConnected (redis fresh) = true /\
     truthy (getCache (cache_read_fails outage) (cache_read_time outage)
               (redis fresh) (_generateCacheKey scenario)) = false /\
     cache_write_fails outage = false /\
     performAssessment outage fresh scenario = (Ok first, after) /\
     cache_read_fails later = false /\
     (cache_read_time later < cache_write_time outage + 86400)%Z) /\
    performAssessment later after scenario
    = (Ok (served_from_cache (json_roundtrip first) (uuid later)), after).
Proof.
  do 2 eexists.
  split; [repeat split; vm_compute; reflexivity|].
  apply (cache_hit_returns_first_result outage later fresh _ scenario scenario);
    vm_compute; reflexivity.
Defined.

(** * Further properties of the service *)

(** ** Environmental score *)


(** ** Grade and recommendation *)

(** X2: the letter grade and the recommendation label of one score never
    disagree: "Highly Recommended" goes with the grades "A+" and "A",
    "Recommended" with "B+" and "B", "C+" is always "Consider with
    Modifications", "Not Recommended" is always graded "C"; a score that is
    not a number is graded "C" and "Not Recommended". *)
Theorem grade_matches_recommendation (score : number) :
  (_getRecommendationLevel score = "Highly Recommended"
   <-> _getGrade score = "A+" \/ _getGrade score = "A") /\
  (_getRecommendationLevel score = "Recommended"
   <-> _getGrade score = "B+" \/ _getGrade score = "B") /\
  (_getGrade score = "C+"
   -> _getRecommendationLevel score = "Consider with Modifications") /\
  (_getRecommendationLevel score = "Not Recommended" -> _getGrade score = "C") /\
  (_getGrade NaN = "C" /\ _getRecommendationLevel NaN = "Not Recommended").
Proof.
  destruct score as [s| | |];
    try (cbv; repeat split; intros; try discriminate; auto;
         intuition discriminate).
  destruct (grade_thresholds s) as (Ap & A & Bp & B & Cp & C).
  destruct (recommendation_thresholds s) as (H & R & M & N).
  split; [|split; [|split; [|split]]].
  - rewrite H, Ap, A. split; [intro | intros [|]]; lra.
  - rewrite R, Bp, B. split; [intro | intros [|]]; lra.
  - rewrite M, Cp. lra.
  - rewrite N, C. lra.
  - split; reflexivity.
Qed.

(** ** Roof estimation *)

Lemma roof_estimation_default (params : Params) :
  roof_estimation params =
  VObj [("status", VStr "estimated");
        ("area_sqm", VNum (default_roof_area (buildingType params)));
        ("confidence", VNum (dec 6 10))].
Proof.
  unfold roof_estimation, default_roof_area.
  destruct (buildingType params) as [t|]; [|reflexivity].
  unfold entry_or, estimations, entry.
  repeat (destruct (String.eqb t _); [reflexivity|]). reflexivity.
Qed.



(** ** Size and cost of a recommendation *)

Lemma tank_cost_ceiling (recommended : number) :
  (recommended >? num 500)%js = true ->
  exists c, Math_round (Math_min (num 5000) recommended * num 15 + num 5000)%js = Fin c
            /\ c <= 80000.
Proof.
  intro H. change (num 500) with (Fin 500) in H.
  change (num 15) with (Fin 15). change (num 5000) with (Fin 5000).
  assert (exists x, Math_min (Fin 5000) recommended = Fin x /\ x <= 5000) as (x & -> & Hx).
  { destruct recommended as [r| | |]; try discriminate H.
    - unfold Math_min, cmp.
      destruct (5000 ?= r) eqn:E; eexists; (split; [reflexivity|]); try lra.
      apply Qgt_alt in E. lra.
    - exists 5000. split; [reflexivity | lra]. }
  rewrite mul_Fin, add_Fin. unfold Math_round, of_Z.
  eexists; split; [reflexivity|].
  change 80000 with (inject_Z 80000). rewrite <- Zle_Qle.
  transitivity (Qfloor (inject_Z 80000 + (1 # 2))).
  - apply Qfloor_resp_le. rewrite !Qred_correct. change (inject_Z 80000) with 80000. lra.
  - vm_compute. discriminate.
Qed.

Lemma recommended_size_and_cost (waterPotential : WaterPotential)
  (waterDemand : WaterDemand) (buildingType budgetRange : string) :
  let l := _generateStructureRecommendations
             waterPotential waterDemand buildingType budgetRange in
  (2 <= List.length l <= 4)%nat /\
  exists total, sum_costs l = Fin total /\ 6500 <= total /\ total <= 95500.
Proof.
  unfold _generateStructureRecommendations. rewrite storage_ratio_lookup.
  set (recommended := (wp_annual_liters waterPotential * storage_ratio buildingType)%js).
  set (excess := (wp_annual_liters waterPotential >? _)%js).
  cbv zeta.
  destruct (recommended >? num 500)%js eqn:E.
  - destruct (tank_cost_bound recommended E) as (c & Hc & Hlow).
    destruct (tank_cost_ceiling recommended E) as (c' & Hc' & Hhigh).
    rewrite Hc in Hc'. injection Hc' as <-.
    destruct excess; destruct (String.eqb budgetRange "high");
      unfold push, sum_costs; cbn [app fold_left estimated_cost List.length];
      rewrite Hc;
      change (num 0) with (Fin 0); change (num 2500) with (Fin 2500);
      change (num 4000) with (Fin 4000); change (num 8000) with (Fin 8000);
      change (num 5000) with (Fin 5000); rewrite !add_Fin;
      (split; [lia|]); (eexists; split; [reflexivity|]);
      rewrite !Qred_correct; lra.
  - destruct excess; destruct (String.eqb budgetRange "high");
      (split; [cbn; lia|]); (eexists; split; [reflexivity|]);
      split; discriminate.
Qed.

(** X4: whatever its inputs, the recommender returns between two and four
    structures whose costs add up to a finite amount of at most 95500 (a
    full tank at 80000, the diverter, the four-stage filtration and the
    recharge pit). *)
Theorem recommendation_size_and_cost (waterPotential : WaterPotential)
  (waterDemand : WaterDemand) (buildingType budgetRange : string) :
  let l := _generateStructureRecommendations
             waterPotential waterDemand buildingType budgetRange in
  (2 <= List.length l <= 4)%nat /\
  exists total, sum_costs l = Fin total /\ 6500 <= total /\ total <= 95500.
Proof. apply recommended_size_and_cost. Qed.

(** ** The cache *)

Lemma same_number_refl (a : number) : same_number a a = true.
Proof. destruct a; try reflexivity. apply Qeq_bool_iff. reflexivity. Qed.

Lemma same_key_refl (key : CacheKey) : same_key key key = true.
Proof.
  unfold same_key. rewrite !same_number_refl, String.eqb_refl.
  destruct (key_roofArea key); [apply same_number_refl | reflexivity].
Qed.

(** What JSON gives back is never [undefined], unless that is what went
    in. *)
Lemma json_roundtrip_undefined (v : value) :
  json_roundtrip v = VUndefined -> v = VUndefined.
Proof.
  destruct v; simpl; try discriminate; try reflexivity.
  destruct (is_finite n); discriminate.
Qed.

(** Induction on a value, with the property at hand for every element of
    an array and every member of an object. *)
Lemma value_induction (P : value -> Prop) :
  P VUndefined -> P VNull -> (forall b, P (VBool b)) -> (forall n, P (VNum n)) ->
  (forall s, P (VStr s)) ->
  (forall items, Forall P items -> P (VArr items)) ->
  (forall props, Forall (fun member => P (snd member)) props -> P (VObj props)) ->
  forall v, P v.
Proof.
  intros HU HN HB HNum HS HA HO. fix IH 1. intros [ | | b | n | s | items | props ].
  - exact HU.
  - exact HN.
  - apply HB.
  - apply HNum.
  - apply HS.
  - apply HA. induction items as [|x rest IHrest]; constructor; [apply IH | exact IHrest].
  - apply HO. induction props as [|[k x] rest IHrest]; constructor;
      [apply IH | exact IHrest].
Qed.

(** A second trip through JSON changes nothing. *)
Lemma json_roundtrip_idempotent :
  forall v : value, json_roundtrip (json_roundtrip v) = json_roundtrip v.
Proof.
  induction v as [ | | b | n | s | items IH | props IH ] using value_induction;
    try reflexivity.
  - simpl. destruct (is_finite n) eqn:E; simpl; [now rewrite E | reflexivity].
  - simpl. f_equal. induction IH as [|x rest Hx _ IHrest]; [reflexivity|].
    destruct x; simpl in Hx |- *; rewrite ?IHrest; try reflexivity.
    + destruct (is_finite n) eqn:E; simpl; rewrite ?E; reflexivity.
    + f_equal. exact Hx.
    + f_equal. exact Hx.
  - simpl. f_equal. induction IH as [|[k x] rest Hx _ IHrest]; [reflexivity|].
    destruct x; simpl in Hx |- *; rewrite ?IHrest; try reflexivity.
    + destruct (is_finite n) eqn:E; simpl; rewrite ?E; reflexivity.
    + do 2 f_equal. exact Hx.
    + do 2 f_equal. exact Hx.
Qed.


(** X5: with Redis connected, a value stored under a key is read back,
    under that key and until its time to live has elapsed, as JSON gives it
    back; after that the key misses; the other keys read as before; and
    storing what was read back changes nothing.  A Redis command that fails
    stores nothing and reads nothing. *)
Theorem cache_set_then_get (redis : Redis) (key : CacheKey) (v : value)
  (ttl set_at read_at : Z) :
  isConnected redis = true ->
  let stored := setCache false set_at redis key v ttl in
  getCache false read_at stored key
    = (if (read_at <? set_at + ttl)%Z then json_roundtrip v else VNull) /\
  (forall other, same_key other key = false ->
     getCache false read_at stored other = getCache false read_at redis other) /\
  (forall again_at, (read_at < again_at + ttl)%Z ->
     getCache false read_at
       (setCache false again_at stored key (json_roundtrip v) ttl) key
     = json_roundtrip v) /\
  setCache true set_at redis key v ttl = redis /\
  getCache true read_at stored key = VNull.
Proof.
  intros Hc stored. subst stored.
  unfold setCache, getCache; rewrite Hc; cbn [negb isConnected entries find_entry].
  rewrite same_key_refl. repeat split.
  - intros other Hother. now rewrite Hother.
  - intros again_at Hfresh.
    repeat (rewrite ?Hc, ?same_key_refl; cbn [negb isConnected entries find_entry]).
    apply Z.ltb_lt in Hfresh. rewrite Hfresh. apply json_roundtrip_idempotent.
Qed.

Lemma cache_set_then_get_witness :
  isConnected (redis fresh) = true /\
  let stored :=
    setCache false 100 (redis fresh) (_generateCacheKey scenario)
      (VObj [("payback", VNum PosInf)]) 86400 in
  getCache false 200 stored (_generateCacheKey scenario)
    = (if (200 <? 100 + 86400)%Z
       then json_roundtrip (VObj [("payback", VNum PosInf)]) else VNull) /\
  (forall other, same_key other (_generateCacheKey scenario) = false ->
     getCache false 200 stored other = getCache false 200 (redis fresh) other) /\
  (forall again_at, (200 < again_at + 86400)%Z ->
     getCache false 200
       (setCache false again_at stored (_generateCacheKey scenario)
          (json_roundtrip (VObj [("payback", VNum PosInf)])) 86400)
       (_generateCacheKey scenario)
     = json_roundtrip (VObj [("payback", VNum PosInf)])) /\
  setCache true 100 (redis fresh) (_generateCacheKey scenario)
    (VObj [("payback", VNum PosInf)]) 86400 = redis fresh /\
  getCache true 200 stored (_generateCacheKey scenario) = VNull.
Proof.
  split; [reflexivity|].
  apply (cache_set_then_get (redis fresh) (_generateCacheKey scenario)
           (VObj [("payback", VNum PosInf)]) 86400 100 200).
  reflexivity.
Defined.

(** ** Objects *)

Lemma lookup_set_same (k : string) (v : value) (props : list (string * value)) :
  lookup k (set_prop k v props) = Some v.
Proof.
  induction props as [|[k' v'] rest IH]; simpl.
  - now rewrite String.eqb_refl.
  - destruct (String.eqb k k') eqn:E; simpl; rewrite ?E, ?String.eqb_refl;
      [reflexivity | exact IH].
Qed.

Lemma lookup_set_other (k k' : string) (v : value) (props : list (string * value)) :
  String.eqb k' k = false -> lookup k' (set_prop k v props) = lookup k' props.
Proof.
  intro Hk. induction props as [|[k0 v0] rest IH]; simpl.
  - now rewrite Hk.
  - destruct (String.eqb k k0) eqn:E; simpl.
    + apply String.eqb_eq in E. subst k0. now rewrite Hk.
    + destruct (String.eqb k' k0); [reflexivity | exact IH].
Qed.

(** What a cache hit returns bears the identifier drawn for the call and
    the marker, whatever the entry held. *)
Lemma served_from_cache_fields (cached : value) (assessmentId : string) :
  get "id" (served_from_cache cached assessmentId) = Ok (VStr assessmentId) /\
  get "cached" (served_from_cache cached assessmentId) = Ok (VBool true).
Proof.
  unfold served_from_cache, get. split.
  - rewrite lookup_set_other by reflexivity. now rewrite lookup_set_same.
  - now rewrite lookup_set_same.
Qed.

(** ** The pipeline *)

Ltac peel_binds H :=
  repeat match type of H with
         | bind ?r _ = Ok _ =>
             let E := fresh "Hstep" in
             destruct r eqn:E; cbn [bind] in H; [|discriminate H]
         | (let '(_, _) := ?p in _) = Ok _ => destruct p
         end.

(** A completed assessment is consistent with itself: each step is the
    calculator's answer to the steps before it. *)
Lemma pipeline_completed (run : Run) (params : Params) (assessmentId : string)
  (a : Assessment) :
  pipeline run params assessmentId = Ok a ->
  id a = assessmentId /\ status a = "completed" /\
  timestamp a = started_at run /\ completed_at a = Some (finished_at run) /\
  rainfall (steps a) = _getRainfallData (rainfall_service run) params /\
  waterDemand (steps a)
    = _calculateWaterDemand (b_type (building a)) (size (household a)) /\
  structures (steps a)
    = _generateStructureRecommendations (waterPotential (steps a))
        (waterDemand (steps a)) (b_type (building a))
        (budget_range (preferences a)) /\
  economics (steps a)
    = _calculateEconomics (structures (steps a)) (waterPotential (steps a))
        (location a) (monthly_income (household a)) /\
  environmental (steps a)
    = _calculateEnvironmentalImpact (wp_annual_liters (waterPotential (steps a)))
        (b_type (building a)) /\
  recommendations a = Some (_generateRecommendations a) /\
  exists o, overall_score a = Some o /\ _calculateOverallScore a = Ok o.
Proof.
  intro H. unfold pipeline in H. peel_binds H.
  injection H as <-. cbn. repeat split. eexists; split; [reflexivity|]. assumption.
Qed.

(** ** Outcomes of [performAssessment] *)

(** X6: whenever [performAssessment] raises, its message is "Assessment
    failed: " followed by the cause, and neither the store nor the cache
    has changed: a result that is not returned is never written. *)
Theorem failure_changes_nothing (run : Run) (world after : World)
  (params : Params) (message : string) :
  performAssessment run world params = (Throw message, after) ->
  after = world /\ exists cause, message = "Assessment failed: " ++ cause.
Proof.
  unfold performAssessment, attempt, saveAssessment.
  destruct (truthy _); [discriminate|].
  destruct (pipeline run params (uuid run)) as [a|cause].
  - destruct (database_error run) as [cause|]; [|discriminate].
    intro H. injection H as <- <-. split; [reflexivity | now exists cause].
  - intro H. injection H as <- <-. split; [reflexivity | now exists cause].
Qed.

Lemma failure_changes_nothing_witness :
  performAssessment store_down fresh scenario
    = (Throw "Assessment failed: Connection terminated unexpectedly", fresh) /\
  fresh = fresh /\
  exists cause,
    "Assessment failed: Connection terminated unexpectedly"
    = "Assessment failed: " ++ cause.
Proof.
  split; [vm_compute; reflexivity|].
  apply (failure_changes_nothing store_down fresh fresh scenario).
  vm_compute; reflexivity.
Defined.

(** X7: whenever [performAssessment] returns a result, the result bears the
    identifier drawn for this call, and either it was served from the cache
    (it carries [cached: true], and store and cache are untouched) or it
    was computed (its status is "completed", exactly one record, the
    result as JSON keeps it, was added to the store, and the cache received
    the result for 24 hours). *)
Theorem success_is_served_or_persisted (run : Run) (world after : World)
  (params : Params) (v : value) :
  performAssessment run world params = (Ok v, after) ->
  get "id" v = Ok (VStr (uuid run)) /\
  ((get "cached" v = Ok (VBool true) /\ after = world) \/
   (get "status" v = Ok (VStr "completed") /\
    get "cached" v = Ok VUndefined /\
    assessments after = push (assessments world) (json_roundtrip v) /\
    redis after
      = setCache (cache_write_fails run) (cache_write_time run) (redis world)
          (_generateCacheKey params) v 86400)).
Proof.
  unfold performAssessment, attempt, saveAssessment.
  destruct (truthy _).
  - intro H. injection H as <- <-.
    destruct (served_from_cache_fields
                (getCache (cache_read_fails run) (cache_read_time run)
                   (redis world) (_generateCacheKey params)) (uuid run))
      as (Hid & Hcached).
    split; [exact Hid | left; split; [exact Hcached | reflexivity]].
  - destruct (pipeline run params (uuid run)) as [a|cause] eqn:Hp; [|discriminate].
    destruct (database_error run) as [cause|]; [discriminate|].
    intro H. injection H as <- <-.
    apply pipeline_completed in Hp as (Hid & Hstatus & _).
    unfold Assessment_object, get; cbn [lookup String.eqb Ascii.eqb Bool.eqb app].
    rewrite Hid, Hstatus. split; [reflexivity | right].
    repeat split.
    destruct (recommendations a), (overall_score a), (completed_at a),
      (processing_time a); reflexivity.
Qed.

Lemma success_is_served_or_persisted_witness :
  exists v after,
    performAssessment outage fresh scenario = (Ok v, after) /\
    get "id" v = Ok (VStr (uuid outage)) /\
    ((get "cached" v = Ok (VBool true) /\ after = fresh) \/
     (get "status" v = Ok (VStr "completed") /\
      get "cached" v = Ok VUndefined /\
      assessments after = push (assessments fresh) (json_roundtrip v) /\
      redis after
        = setCache (cache_write_fails outage) (cache_write_time outage)
            (redis fresh) (_generateCacheKey scenario) v 86400)).
Proof.
  do 2 eexists. split; [vm_compute; reflexivity|].
  apply (success_is_served_or_persisted outage fresh _ scenario).
  vm_compute; reflexivity.
Defined.

(** X8: when Redis is not connected the cache plays no part: the call
    leaves it as it was, and its outcome and what it stores are those of a
    call that finds no cache at all. *)
Theorem cache_down_is_no_cache (run : Run) (world : World) (params : Params) :
  isConnected (redis world) = false ->
  let without :=
    {| redis := {| isConnected := false; entries := [] |};
       assessments := assessments world |} in
  fst (performAssessment run world params)
    = fst (performAssessment run without params) /\
  assessments (snd (performAssessment run world params))
    = assessments (snd (performAssessment run without params)) /\
  redis (snd (performAssessment run world params)) = redis world.
Proof.
  intros Hdown without. subst without.
  unfold performAssessment, attempt, saveAssessment, getCache, setCache;
    cbn [redis assessments isConnected negb]. rewrite Hdown; cbn [negb truthy].
  destruct (pipeline run params (uuid run)) as [a|cause]; [|repeat split].
  destruct (database_error run); repeat split.
Qed.

Lemma cache_down_is_no_cache_witness :
  isConnected (redis unreachable) = false /\
  let without :=
    {| redis := {| isConnected := false; entries := [] |};
       assessments := assessments unreachable |} in
  fst (performAssessment outage unreachable scenario)
    = fst (performAssessment outage without scenario) /\
  assessments (snd (performAssessment outage unreachable scenario))
    = assessments (snd (performAssessment outage without scenario)) /\
  redis (snd (performAssessment outage unreachable scenario)) = redis unreachable.
Proof.
  split; [reflexivity|].
  apply (cache_down_is_no_cache outage unreachable scenario). reflexivity.
Defined.

(** ** Degraded operation *)

Lemma known_building_type_entry (t : string) :
  known_building_type t = true ->
  exists c, entry t buildingCoefficients = Some c.
Proof.
  unfold known_building_type, buildingCoefficients, entry.
  repeat (destruct (String.eqb t _); [intros _; eexists; reflexivity|]).
  discriminate.
Qed.

Lemma unknown_building_type_entry (t : string) :
  known_building_type t = false ->
  entry t buildingCoefficients = None /\
  entry_or t estimations (num 100) = num 100 /\
  entry_or t storageRecommendations (dec 15 100) = dec 15 100.
Proof.
  unfold known_building_type, buildingCoefficients, estimations,
    storageRecommendations, entry_or, entry.
  repeat (destruct (String.eqb t _); [discriminate|]).
  intros _. repeat split.
Qed.

Lemma detection_falls_back (ml : reply) (params : Params) :
  string_or_null (imageUrl params) = None \/ (exists message, ml = Rejected message) ->
  _detectRoofArea ml params = roof_estimation params.
Proof.
  unfold _detectRoofArea. intros [-> | (m & ->)]; [reflexivity|].
  destruct (string_or_null (imageUrl params)); reflexivity.
Qed.

Lemma estimated_area (params : Params) :
  get "area_sqm" (roof_estimation params)
  = Ok (VNum (default_roof_area (buildingType params))).
Proof. now rewrite roof_estimation_default. Qed.

Lemma fallback_rainfall_total (message : string) (params : Params) :
  exists total,
    get "annual_prediction" (_getRainfallData (Rejected message) params)
    = Ok (VObj [("total_rainfall", VNum total); ("deviation_percent", VNum (num 0))]).
Proof. eexists. reflexivity. Qed.

Lemma overall_score_of_fallback (a : Assessment) (message : string)
  (request : FeasibilityRequest) :
  feasibility (steps a) = _getFeasibilityAnalysis (Rejected message) request ->
  exists o, _calculateOverallScore a = Ok o /\
    bd_feasibility (breakdown o) = num 75 /\ bd_technical (breakdown o) = num 80.
Proof.
  intro H. unfold _calculateOverallScore. rewrite H.
  eexists. split; [reflexivity|]. split; reflexivity.
Qed.


(** ** Building types outside the tables *)



Lemma demand_as_residential (t : string) (occupancy : number) :
  known_building_type t = false ->
  _calculateWaterDemand t occupancy = _calculateWaterDemand "residential" occupancy.
Proof.
  intro H. unfold _calculateWaterDemand.
  now destruct (unknown_building_type_entry t H) as (-> & _).
Qed.

Lemma structures_as_residential (waterPotential : WaterPotential)
  (waterDemand : WaterDemand) (t budgetRange : string) :
  known_building_type t = false ->
  _generateStructureRecommendations waterPotential waterDemand t budgetRange
  = _generateStructureRecommendations waterPotential waterDemand "residential"
      budgetRange.
Proof.
  intro H. unfold _generateStructureRecommendations.
  now destruct (unknown_building_type_entry t H) as (_ & _ & ->).
Qed.

Lemma detection_as_residential (ml : reply) (params : Params) (t : string) :
  buildingType params = Some t -> known_building_type t = false ->
  _detectRoofArea ml params = _detectRoofArea ml (as_residential params).
Proof.
  intros Ht H. unfold _detectRoofArea, roof_estimation.
  cbn [as_residential imageUrl buildingType]. rewrite Ht.
  now destruct (unknown_building_type_entry t H) as (_ & -> & _).
Qed.

Lemma feasibility_as_residential (ml : reply) (request : FeasibilityRequest) :
  _getFeasibilityAnalysis ml request
  = _getFeasibilityAnalysis ml
      {| roof_area := roof_area request;
         annual_rainfall := annual_rainfall request;
         household_size := household_size request;
         roof_type := roof_type request;
         building_type := "residential" |}.
Proof. destruct ml; reflexivity. Qed.

Lemma rainfall_as_residential (ml : reply) (params : Params) :
  _getRainfallData ml (as_residential params) = _getRainfallData ml params.
Proof. destruct ml; reflexivity. Qed.

(** The score reads the steps of an assessment and nothing else. *)
Lemma overall_score_by_steps (x y : Assessment) :
  steps x = steps y -> _calculateOverallScore x = _calculateOverallScore y.
Proof. unfold _calculateOverallScore. now intros ->. Qed.

Lemma recommendations_by_steps (x y : Assessment) :
  steps x = steps y -> _generateRecommendations x = _generateRecommendations y.
Proof. unfold _generateRecommendations. now intros ->. Qed.



(** ** Implementation phases *)

Lemma Qred_twice (q : Q) : Qred (Qred q) = Qred q.
Proof. apply Qred_complete, Qred_correct. Qed.

Lemma fold_costs_finite (l : list Structure) :
  Forall (fun s => is_finite (estimated_cost s) = true) l ->
  forall acc, Qred acc = acc ->
  exists t,
    fold_left (fun sum struct => (sum + estimated_cost struct)%js) l (Fin acc) = Fin t
    /\ t == acc + total_of l /\ Qred t = t.
Proof.
  induction 1 as [|s rest Hs _ IH]; intros acc Hacc.
  - exists acc. simpl. repeat split; [lra | exact Hacc].
  - destruct (estimated_cost s) as [c| | |] eqn:Ec; try discriminate Hs.
    cbn [fold_left total_of fold_right]. rewrite Ec, add_Fin.
    destruct (IH (Qred (acc + c)) (Qred_twice _)) as (t & Ht & Hsum & Hred).
    exists t. repeat split; [exact Ht | | exact Hred].
    rewrite Hsum, Qred_correct. fold (total_of rest). lra.
Qed.

Lemma sum_costs_total (l : list Structure) :
  Forall (fun s => is_finite (estimated_cost s) = true) l ->
  exists t, sum_costs l = Fin t /\ t == total_of l /\ Qred t = t.
Proof.
  intro H. destruct (fold_costs_finite l H 0 eq_refl) as (t & Ht & Hsum & Hred).
  exists t. repeat split; [exact Ht | lra | exact Hred].
Qed.

Lemma le_gt_complement (a b : number) :
  a <> NaN -> b <> NaN -> (a <=? b)%js = negb (a >? b)%js.
Proof.
  intros Ha Hb. unfold JS.le, JS.gt.
  destruct a, b; simpl; try congruence; try reflexivity.
  destruct (q ?= q0); reflexivity.
Qed.

Lemma total_of_partition (l : list Structure) (p : Structure -> bool) :
  total_of l == total_of (filter p l) + total_of (filter (fun s => negb (p s)) l).
Proof.
  induction l as [|s rest IH]; [reflexivity|].
  cbn [filter]. destruct (p s); cbn [negb total_of fold_right];
    fold (total_of rest); fold (total_of (filter p rest));
    fold (total_of (filter (fun s => negb (p s)) rest));
    destruct (estimated_cost s); lra.
Qed.

Lemma filter_finite (l : list Structure) (p : Structure -> bool) :
  Forall (fun s => is_finite (estimated_cost s) = true) l ->
  Forall (fun s => is_finite (estimated_cost s) = true) (filter p l).
Proof.
  intro H. apply Forall_forall. intros s Hs. apply filter_In in Hs as [Hs _].
  revert s Hs. now apply Forall_forall.
Qed.




(** ** Payback and the priority actions *)

Lemma payback_not_positive (total net : Q) :
  0 < total -> net < 0 ->
  exists p, (Math_round (Fin total / Fin net * num 10) / num 10)%js = Fin p /\ p <= 0.
Proof.
  intros Htotal Hneg. rewrite div_Fin by lra.
  change (num 10) with (Fin 10). rewrite mul_Fin.
  unfold Math_round, of_Z. rewrite div_Fin by discriminate.
  eexists; split; [reflexivity|].
  rewrite Qred_correct.
  set (x := Qred (Qred (total / net) * 10) + (1 # 2)).
  assert (Hx : x < 1).
  { subst x. rewrite !Qred_correct.
    assert (Hopp : total / net == - (total / - net)) by (field; lra).
    assert (0 < total / - net) by (apply Qlt_shift_div_l; lra).
    lra. }
  assert (Hz : (Qfloor x <= 0)%Z).
  { assert (inject_Z (Qfloor x) < inject_Z 1)
      by (apply Qle_lt_trans with x; [apply Qfloor_le | exact Hx]).
    rewrite <- Zlt_Qlt in H. lia. }
  apply Qle_shift_div_r; [reflexivity|].
  rewrite Zle_Qle in Hz. change (inject_Z 0) with 0 in Hz. lra.
Qed.

(** A rounded number below zero was below zero. *)
Lemma round_negative (x : number) (n : Q) :
  Math_round x = Fin n -> n < 0 -> exists q, x = Fin q /\ q < 0.
Proof.
  destruct x as [q| | |]; try discriminate.
  unfold Math_round, of_Z. intros H Hn.
  assert (E : inject_Z (Qfloor (q + (1 # 2))) = n) by congruence.
  rewrite <- E in Hn. clear H E.
  exists q. split; [reflexivity|].
  change 0 with (inject_Z 0) in Hn. rewrite <- Zlt_Qlt in Hn.
  assert (Hq : q + (1 # 2) < inject_Z (Qfloor (q + (1 # 2)) + 1))
    by apply Qlt_floor.
  assert (H : inject_Z (Qfloor (q + (1 # 2)) + 1) <= inject_Z 0)
    by (rewrite <- Zle_Qle; lia).
  change (inject_Z 0) with 0 in H.
  revert Hq H. generalize (inject_Z (Qfloor (q + (1 # 2)) + 1)). intros u Hq H. lra.
Qed.

(** X13: every completed assessment that reports negative net annual
    savings reports a payback period that is not positive, and, that
    period being below three years, lists the priority action "Immediate
    Implementation", filed as an excellent return. *)
Theorem negative_savings_are_recommended (run : Run) (params : Params)
  (assessmentId : string) (a : Assessment) (n : Q) :
  pipeline run params assessmentId = Ok a ->
  net_annual_savings (economics (steps a)) = Fin n -> n < 0 ->
  exists r p,
    recommendations a = Some r /\
    payback_period_years (economics (steps a)) = Fin p /\ p <= 0 /\
    In immediate_implementation (priority_actions r).
Proof.
  intros Hp Hnet Hn.
  apply pipeline_completed in Hp
    as (_ & _ & _ & _ & _ & _ & Hs & He & _ & Hr & _).
  destruct (recommended_size_and_cost (waterPotential (steps a)) (waterDemand (steps a))
              (b_type (building a)) (budget_range (preferences a)))
    as (_ & total & Hsum & Hlow & _).
  rewrite <- Hs in Hsum.
  assert (Hpay : exists p, payback_period_years (economics (steps a)) = Fin p /\ p <= 0).
  { rewrite He in Hnet |- *. unfold _calculateEconomics in Hnet |- *.
    cbn [net_annual_savings payback_period_years] in Hnet |- *.
    rewrite Hsum in Hnet |- *.
    destruct (round_negative _ n Hnet Hn) as (net & -> & Hneg).
    apply payback_not_positive; lra. }
  destruct Hpay as (p & Hpay & Hle).
  exists (_generateRecommendations a), p.
  split; [exact Hr|]. split; [exact Hpay|]. split; [exact Hle|].
  unfold _generateRecommendations; cbn [priority_actions]. rewrite Hpay.
  change (num 3) with (Fin 3).
  assert ((Fin p <? Fin 3)%js = true) as -> by (apply lt_Fin; lra).
  unfold push; cbn [app].
  destruct (_ >? _)%js; simpl; auto.
Qed.

Lemma negative_savings_are_recommended_witness :
  exists a,
    (pipeline outage scenario (uuid outage) = Ok a /\
     net_annual_savings (economics (steps a)) = Fin (-2570) /\ -2570 < 0) /\
    exists r p,
      recommendations a = Some r /\
      payback_period_years (economics (steps a)) = Fin p /\ p <= 0 /\
      In immediate_implementation (priority_actions r).
Proof.
  eexists. split.
  - split; [vm_compute; reflexivity|]. split; reflexivity.
  - apply (negative_savings_are_recommended outage scenario (uuid outage) _ (-2570));
      first [vm_compute; reflexivity | reflexivity].
Defined.

(** ** Ceiling of the overall score *)

Lemma min_100 (x : Q) : exists m, Math_min (Fin 100) (Fin x) = Fin m /\ m <= 100.
Proof.
  unfold Math_min, cmp. destruct (100 ?= x) eqn:E.
  - exists 100. split; [reflexivity | lra].
  - exists 100. split; [reflexivity | lra].
  - apply Qgt_alt in E. exists x. split; [reflexivity | lra].
Qed.

(** X14: an overall score cannot reach 100.  With a feasibility score and
    a technical sub-score of at most 100 (present and not zero) and finite
    ROI and environmental score, the latter at most 100, the reported
    overall score is at most 99: the social component stops at 85. *)
Theorem overall_score_ceiling (assessment : Assessment) (f t roi env : Q)
  (analysis : value) :
  get "feasibility_score" (feasibility (steps assessment)) = Ok (VNum (Fin f)) ->
  ~ f == 0 -> f <= 100 ->
  get "technical_analysis" (feasibility (steps assessment)) = Ok analysis ->
  get_opt "technical_score" analysis = VNum (Fin t) ->
  ~ t == 0 -> t <= 100 ->
  roi_percentage (economics (steps assessment)) = Fin roi ->
  environmental_score (environmental (steps assessment)) = Fin env -> env <= 100 ->
  exists o score,
    _calculateOverallScore assessment = Ok o /\ overall o = Fin score /\ score <= 99.
Proof.
  intros Hf Hfz Hf100 Ha Ht Htz Ht100 Hroi Henv Henv100.
  unfold _calculateOverallScore. rewrite Hf, Ha. cbn [bind]. rewrite Ht.
  unfold or_else, truthy, truthy_number.
  apply Qzero_b_false in Hfz, Htz. rewrite Hfz, Htz. cbn [negb ToNumber].
  rewrite Hroi, Henv. change (num 5) with (Fin 5). rewrite mul_Fin.
  change (num 100) with (Fin 100).
  destruct (min_100 (Qred (roi * 5))) as (m & -> & Hm).
  assert (Hsocial : exists s,
    (if (wp_annual_liters (waterPotential (steps assessment)) >? num 10000)%js
     then num 85 else num 65) = Fin s /\ s <= 85).
  { destruct (_ >? _)%js; eexists; (split; [reflexivity|]); discriminate. }
  destruct Hsocial as (s & -> & Hs).
  unfold weighted, weights.feasibility, weights.economics, weights.environmental,
    weights.technical, weights.social.
  change (dec 3 10) with (Fin (3 # 10)). change (dec 25 100) with (Fin (1 # 4)).
  change (dec 2 10) with (Fin (1 # 5)). change (dec 15 100) with (Fin (3 # 20)).
  change (dec 1 10) with (Fin (1 # 10)).
  rewrite !mul_Fin, !add_Fin.
  eexists. eexists. split; [reflexivity|]. cbn [overall]. unfold Math_round, of_Z.
  split; [reflexivity|].
  change 99 with (inject_Z 99). rewrite <- Zle_Qle.
  transitivity (Qfloor (inject_Z 99)); [|rewrite Qfloor_Z; reflexivity].
  apply Qfloor_resp_le. rewrite !Qred_correct. change (inject_Z 99) with 99. lra.
Qed.

Lemma overall_score_ceiling_witness :
  exists a,
    pipeline outage scenario (uuid outage) = Ok a /\
    (get "feasibility_score" (feasibility (steps a)) = Ok (VNum (Fin 75)) /\
     ~ 75 == 0 /\ 75 <= 100 /\
     get "technical_analysis" (feasibility (steps a))
       = Ok (VObj [("technical_score", VNum (num 80));
                   ("runoff_coefficient", VNum (dec 85 100))]) /\
     ~ 80 == 0 /\ 80 <= 100 /\
     roi_percentage (economics (steps a)) = Fin (-3) /\
     environmental_score (environmental (steps a)) = Fin 100 /\ 100 <= 100) /\
    exists o score,
      _calculateOverallScore a = Ok o /\ overall o = Fin score /\ score <= 99.
Proof.
  eexists. split; [vm_compute; reflexivity|].
  split; [repeat split; discriminate|].
  match goal with
  | |- exists o score, _calculateOverallScore ?a = _ /\ _ =>
      apply (overall_score_ceiling a 75 80 (-3) 100
               (VObj [("technical_score", VNum (num 80));
                      ("runoff_coefficient", VNum (dec 85 100))]));
        first [reflexivity | discriminate]
  end.
Defined.

(** ** A rainfall body without a prediction *)

(** X15: a rainfall response that is delivered without an
    [annual_prediction] is fatal to the whole assessment: for a request
    that supplies its roof area and household size and misses the cache,
    [performAssessment] raises on the read of the rainfall total, and
    nothing is stored. *)
Theorem rainfall_without_prediction_is_fatal (run : Run) (world : World)
  (params : Params) (data : value) :
  rainfall_service run = Resolved data ->
  get "annual_prediction" data = Ok VUndefined ->
  given (householdSize params) <> None ->
  given (roofArea params) <> None ->
  truthy (getCache (cache_read_fails run) (cache_read_time run) (redis world)
            (_generateCacheKey params)) = false ->
  performAssessment run world params
  = (Throw ("Assessment failed: " ++ type_error "total_rainfall" "undefined"), world).
Proof.
  intros Hrain Hmissing Hsize Harea Hmiss.
  unfold performAssessment, attempt. rewrite Hmiss.
  unfold pipeline. rewrite Hrain. cbn [_getRainfallData].
  destruct (given (householdSize params)); [|now elim Hsize].
  destruct (given (roofArea params)); [|now elim Harea].
  cbn [bind]. rewrite Hmissing. reflexivity.
Qed.

Lemma rainfall_without_prediction_is_fatal_witness :
  (rainfall_service no_prediction
     = Resolved (VObj [("detail", VStr "model not loaded")]) /\
   get "annual_prediction" (VObj [("detail", VStr "model not loaded")])
     = Ok VUndefined /\
   given (householdSize scenario) <> None /\
   given (roofArea scenario) <> None /\
   truthy (getCache (cache_read_fails no_prediction) (cache_read_time no_prediction)
             (redis fresh) (_generateCacheKey scenario)) = false) /\
  performAssessment no_prediction fresh scenario
  = (Throw ("Assessment failed: " ++ type_error "total_rainfall" "undefined"), fresh).
Proof.
  split; [repeat split; discriminate|].
  apply (rainfall_without_prediction_is_fatal no_prediction fresh scenario
           (VObj [("detail", VStr "model not loaded")]));
    first [reflexivity | discriminate].
Defined.
